(** * The Grepr API client: token cache, retrying executor, error
      classifier and state-wait loops

    A shallow embedding of [internal/client/client.go],
    [internal/client/jobs.go] and the state helpers of the client package.
    Everything outside the package (the clock, the HTTP transport, the
    context, the JSON codec, URL escaping) is collected in one record of
    oracles, [Env]; the package's own code is translated function by
    function over a store that holds the client struct and a log of the
    effects performed so far. *)

From Stdlib Require Import ZArith List String Ascii Bool Lia DecimalString.
Import ListNotations.

Local Open Scope list_scope.
Local Open Scope string_scope.
Local Open Scope Z_scope.

(** ** Machine integers *)

(** Go's [int64] (and so [time.Duration]): values are kept in [Z] and every
    arithmetic result is brought back into [-2^63, 2^63) by [wrap64]. *)
Module Int64.

Definition modulus : Z := 2 ^ 64.
Definition half_modulus : Z := 2 ^ 63.

Definition wrap64 (z : Z) : Z :=
  (z + half_modulus) mod modulus - half_modulus.

Definition in_range (z : Z) : Prop := - half_modulus <= z < half_modulus.

Definition mul (a b : Z) : Z := wrap64 (a * b).

(** [uint(x)] for an [int] x (64-bit platform). *)
Definition to_uint (z : Z) : Z := z mod modulus.

(** [a << n] for an unsigned shift count [n]: counts of 64 and more give 0. *)
Definition shl (a n : Z) : Z :=
  if n <? 64 then wrap64 (a * 2 ^ n) else 0.

End Int64.

(** ** package time *)

Module time.

(** A [time.Duration] is a count of nanoseconds (int64). *)
Definition Duration := Z.

Definition Nanosecond : Duration := 1.
Definition Millisecond : Duration := 1000000.
Definition Second : Duration := 1000000000.

(** A [time.Time] is an instant, in nanoseconds on the clock's axis. *)
Definition Time := Z.

Definition Add (t : Time) (d : Duration) : Time := t + d.
Definition Before (t u : Time) : bool := t <? u.
Definition After (t u : Time) : bool := t >? u.

End time.

(** ** package fmt *)

Module fmt.

(** Operands of a formatting call. An error operand is passed by the text
    of its [Error()] method; [ArgNil] is a nil error operand. *)
Inductive Arg : Type :=
| ArgInt (z : Z)
| ArgStr (s : string)
| ArgBool (b : bool)
| ArgErr (msg : string)
| ArgNil.

(** [strconv]'s decimal rendering of an integer. *)
Definition FormatInt (z : Z) : string := NilZero.string_of_int (Z.to_int z).

Definition bad_verb (v : ascii) : string :=
  "%!" ++ String v "(BADARG)".

(** One verb applied to one operand. The verbs this package uses are
    [%d], [%s], [%t] and [%w]; an operand of the wrong kind is flagged. *)
Definition format_verb (v : ascii) (a : Arg) : string :=
  match a with
  | ArgInt z => if (v =? "d")%char then FormatInt z else bad_verb v
  | ArgStr s => if (v =? "s")%char then s else bad_verb v
  | ArgBool b =>
      if (v =? "t")%char then (if b then "true" else "false") else bad_verb v
  | ArgErr msg =>
      if ((v =? "w") || (v =? "s"))%char then msg else bad_verb v
  | ArgNil => "%!" ++ String v "(<nil>)"
  end.

(** [fmt.Sprintf]: the format is scanned left to right, each verb consumes
    the next operand. Operands left over at the end are not rendered (no
    call of this package leaves any). *)
Fixpoint Sprintf (format : string) (args : list Arg) : string :=
  match format with
  | EmptyString => EmptyString
  | String c rest =>
      if (c =? "%")%char then
        match rest with
        | EmptyString => "%!(NOVERB)"
        | String v rest' =>
            if (v =? "%")%char then String "%" (Sprintf rest' args)
            else
              match args with
              | [] => ("%!" ++ String v "(MISSING)") ++ Sprintf rest' []
              | a :: args' => format_verb v a ++ Sprintf rest' args'
              end
        end
      else String c (Sprintf rest args)
  end.

End fmt.

(** ** Errors *)

(** [APIError] (client.go, l. 264). *)
Record APIError : Type := mkAPIError {
  StatusCode : Z;
  Message : string
}.

(** Go's [error] interface, by the dynamic types that occur in this
    package: plain message errors (from [fmt.Errorf] without [%w], and the
    errors of the libraries), wrapping errors ([fmt.Errorf] with [%w]) and
    [*APIError]. *)
Inductive error : Type :=
| errorString (s : string)
| wrapError (msg : string) (err : error)
| apiError (e : APIError).

(** ** package net/http and io *)

(** The body of a response as a reader: the bytes it delivers and the
    error, if any, that ends the reading. *)
Record BodyStream : Type := mkBody {
  bytes : string;
  readErr : option error
}.

(** [io.ReadAll]. *)
Definition ReadAll (b : BodyStream) : string * option error :=
  (bytes b, readErr b).

Module http.

Definition StatusOK : Z := 200.
Definition StatusBadRequest : Z := 400.
Definition StatusUnauthorized : Z := 401.
Definition StatusForbidden : Z := 403.
Definition StatusNotFound : Z := 404.
Definition StatusConflict : Z := 409.
Definition MethodGet : string := "GET".
Definition MethodPost : string := "POST".

(** A request as this package builds it: method, URL, the three headers it
    sets and the body bytes. *)
Record Request : Type := mkRequest {
  Method : string;
  URL : string;
  Authorization : option string;
  ContentType : option string;
  Accept : option string;
  ReqBody : option string
}.

Record Response : Type := mkResponse {
  StatusCode : Z;
  Body : BodyStream
}.

End http.

Definition APIError_Error (e : APIError) : string :=
  fmt.Sprintf "API error (status %d): %s"
    [fmt.ArgInt (StatusCode e); fmt.ArgStr (Message e)].

Definition IsNotFound (e : APIError) : bool :=
  StatusCode e =? http.StatusNotFound.

Definition IsConflict (e : APIError) : bool :=
  StatusCode e =? http.StatusConflict.

Definition IsBadRequest (e : APIError) : bool :=
  StatusCode e =? http.StatusBadRequest.

Definition IsUnauthorized (e : APIError) : bool :=
  StatusCode e =? http.StatusUnauthorized.

Definition IsForbidden (e : APIError) : bool :=
  StatusCode e =? http.StatusForbidden.

Definition IsClientError (e : APIError) : bool :=
  (StatusCode e >=? 400) && (StatusCode e <? 500).

Definition IsServerError (e : APIError) : bool :=
  StatusCode e >=? 500.

Definition IsRetryable (e : APIError) : bool :=
  IsServerError e.

(** The [Error()] method of an error value. *)
Definition Error (err : error) : string :=
  match err with
  | errorString s => s
  | wrapError msg _ => msg
  | apiError e => APIError_Error e
  end.

(** [fmt.Errorf] with a format that has no [%w]. *)
Definition Errorf (format : string) (args : list fmt.Arg) : error :=
  errorString (fmt.Sprintf format args).

(** [fmt.Errorf] with a format whose last verb is [%w] and whose last
    operand is [err]; a nil operand is rendered and nothing is wrapped. *)
Definition ErrorfW (format : string) (args : list fmt.Arg)
    (err : option error) : error :=
  match err with
  | Some e => wrapError (fmt.Sprintf format (args ++ [fmt.ArgErr (Error e)])%list) e
  | None => errorString (fmt.Sprintf format (args ++ [fmt.ArgNil])%list)
  end.

(** ** Constants of client.go *)

Definition defaultAuth0Domain : string := "grepr-prod.us.auth0.com".
Definition tokenRefreshBuffer : time.Duration := 60 * time.Second.
Definition maxRetries : Z := 3.
Definition initialRetryDelay : time.Duration := 100 * time.Millisecond.
Definition maxRetryDelay : time.Duration := 5 * time.Second.

(** [calculateBackoff] (client.go, l. 254). The untyped constant 1 takes
    the type of the conversion, [time.Duration]; the shift and the product
    are int64 operations. *)
Definition calculateBackoff (attempt : Z) : time.Duration :=
  let delay :=
    Int64.mul initialRetryDelay (Int64.shl 1 (Int64.to_uint attempt)) in
  if delay >? maxRetryDelay then maxRetryDelay else delay.

(** ** Types of the client package *)

(** [Client] (client.go, l. 49). The transport ([httpClient]) is an oracle
    of [Env]; the mutex guards nothing in a single thread of control. *)
Record Client : Type := mkClient {
  host : string;
  clientID : string;
  clientSecret : string;
  auth0Domain : string;
  accessToken : string;
  tokenExpiry : time.Time
}.

Record OAuthTokenRequest : Type := mkOAuthTokenRequest {
  ClientID : string;
  ClientSecret : string;
  Audience : string;
  GrantType : string
}.

Record OAuthTokenResponse : Type := mkOAuthTokenResponse {
  AccessToken : string;
  TokenType : string;
  ExpiresIn : Z
}.

(** Modelled from the spec: the generated type [ReadJobState] is not part
    of the sources; it is a string type whose values print as the state
    names of the spec ("RUNNING", "PENDING", ...). *)
Definition JobState : Type := string.

Definition JobStateCreated : JobState := "CREATED".
Definition JobStatePending : JobState := "PENDING".
Definition JobStateRunning : JobState := "RUNNING".
Definition JobStateStopped : JobState := "STOPPED".
Definition JobStateFinished : JobState := "FINISHED".
Definition JobStateFailed : JobState := "FAILED".
Definition JobStateCancelled : JobState := "CANCELLED".
Definition JobStateDeleted : JobState := "DELETED".
Definition JobStateUpdating : JobState := "UPDATING".
Definition JobStateStarting : JobState := "STARTING".
Definition JobStateStopping : JobState := "STOPPING".

(** Modelled from the spec: the generated type [ReadJob] is not part of
    the sources; of its fields the identifier, version, name, state and
    desired state are kept. *)
Record Job : Type := mkJob {
  Id : string;
  Version : Z;
  Name : string;
  State : JobState;
  DesiredState : string
}.

Definition zeroJob : Job := mkJob "" 0 "" "" "".

(** [JobsResponse]: the collection wrapper, whose [Items] is a pointer to
    a slice (jobs.go, l. 66). *)
Record JobsResponse : Type := mkJobsResponse {
  Items : option (list Job)
}.

Definition zeroJobsResponse : JobsResponse := mkJobsResponse None.

(** [IsTerminal] and [IsStable]. *)
Definition IsTerminal (s : JobState) : bool :=
  String.eqb s JobStateFinished || String.eqb s JobStateFailed
  || String.eqb s JobStateCancelled || String.eqb s JobStateDeleted.

Definition IsStable (s : JobState) : bool :=
  if String.eqb s JobStateRunning || String.eqb s JobStateStopped then true
  else IsTerminal s.

(** Endpoint paths (endpoints.go). *)
Definition EndpointJobsAsync : string := "/api/v1/jobs/async".
Definition EndpointJobs : string := "/api/v1/jobs".
Definition EndpointJob : string := "/api/v1/jobs/%s".

(** ** The environment and the state *)

(** What the package calls but does not define. Each oracle that stands
    for an effect is indexed by the number of times that effect has
    happened before, so that a run is a function of the environment. *)
Record Env : Type := mkEnv {
  (** the n-th reading of [time.Now()] *)
  clock : nat -> time.Time;
  (** [httpClient.Do] on the n-th request handed to the transport *)
  roundTrip : nat -> http.Request -> http.Response + error;
  (** the n-th [select] on [ctx.Done()] against the poll timer: the
      context's error when the context is done first *)
  ctxDone : nat -> option error;
  (** the package variable [pollInterval] *)
  pollInterval : time.Duration;
  (** the error of [http.NewRequestWithContext] for a method and a URL *)
  newRequestError : string -> string -> option error;
  PathEscape : string -> string;
  QueryEscape : string -> string;
  (** request bodies and [json.Marshal] on them *)
  Payload : Type;
  marshalBody : Payload -> string + error;
  marshalTokenRequest : OAuthTokenRequest -> string + error;
  (** [json.NewDecoder(body).Decode] and [json.Unmarshal] into a zero value *)
  decodeTokenResponse : BodyStream -> OAuthTokenResponse + error;
  unmarshalJob : string -> Job + error;
  unmarshalJobsResponse : string -> JobsResponse + error
}.

(** The client struct and the effects performed so far. *)
Record Store : Type := mkStore {
  client : Client;
  nowCalls : nat;
  sent : list http.Request;
  slept : list time.Duration;
  selects : nat
}.

Definition tick (st : Store) : Store :=
  mkStore (client st) (S (nowCalls st)) (sent st) (slept st) (selects st).

Definition record_request (req : http.Request) (st : Store) : Store :=
  mkStore (client st) (nowCalls st) (req :: sent st) (slept st) (selects st).

Definition record_sleep (d : time.Duration) (st : Store) : Store :=
  mkStore (client st) (nowCalls st) (sent st) (d :: slept st) (selects st).

Definition record_select (st : Store) : Store :=
  mkStore (client st) (nowCalls st) (sent st) (slept st) (S (selects st)).

Definition with_client (c : Client) (st : Store) : Store :=
  mkStore c (nowCalls st) (sent st) (slept st) (selects st).

Definition with_accessToken (tok : string) (c : Client) : Client :=
  mkClient (host c) (clientID c) (clientSecret c) (auth0Domain c)
    tok (tokenExpiry c).

Definition with_tokenExpiry (t : time.Time) (c : Client) : Client :=
  mkClient (host c) (clientID c) (clientSecret c) (auth0Domain c)
    (accessToken c) t.

(** The state monad the methods run in. *)
Definition M (A : Type) : Type := Store -> A * Store.

Definition ret {A : Type} (a : A) : M A := fun st => (a, st).

Definition bind {A B : Type} (m : M A) (k : A -> M B) : M B :=
  fun st => let (a, st') := m st in k a st'.

Notation "x <- m ;; k" := (bind m (fun x => k))
  (at level 61, m at next level, right associativity).
Notation "' pat <- m ;; k" := (bind m (fun x => match x with pat => k end))
  (at level 61, pat pattern, m at next level, right associativity).
Notation "m ;;; k" := (bind m (fun _ => k))
  (at level 61, right associativity).

Definition getClient : M Client := fun st => (client st, st).

Definition putClient (c : Client) : M unit := fun st => (tt, with_client c st).

(** The result of one turn of a [for { ... }] loop. *)
Inductive LoopStep (R : Type) : Type :=
| Continue
| Return (r : R).
Arguments Continue {R}.
Arguments Return {R} r.

(** [for { body }]: [None] when the fuel is used up before a [return]. *)
Fixpoint forever {R : Type} (body : M (LoopStep R)) (fuel : nat) (st : Store)
    : option (R * Store) :=
  match fuel with
  | O => None
  | S fuel' =>
      match body st with
      | (Return r, st') => Some (r, st')
      | (Continue, st') => forever body fuel' st'
      end
  end.

(** The state after [k] turns that all fall through to the next turn. *)
Fixpoint turns {R : Type} (body : M (LoopStep R)) (k : nat) (st : Store)
    : option Store :=
  match k with
  | O => Some st
  | S k' =>
      match body st with
      | (Continue, st') => turns body k' st'
      | (Return _, _) => None
      end
  end.

(** ** The methods of the client *)

Section Methods.

Variable E : Env.

(** *** Effects *)

(** [time.Now()]. *)
Definition Now : M time.Time :=
  fun st => (clock E (nowCalls st), tick st).

(** [c.httpClient.Do(req)]. *)
Definition Do (req : http.Request) : M (http.Response + error) :=
  fun st => (roundTrip E (List.length (sent st)) req, record_request req st).

(** [time.Sleep(d)]. *)
Definition Sleep (d : time.Duration) : M unit :=
  fun st => (tt, record_sleep d st).

(** [select { case <-ctx.Done(): ...; case <-time.After(pollInterval): }]:
    the context's error, or nothing once the interval has been waited. *)
Definition selectDone : M (option error) :=
  fun st =>
    match ctxDone E (selects st) with
    | Some err => (Some err, record_select st)
    | None => (None, record_select (record_sleep (pollInterval E) st))
    end.

(** *** client.go *)

(** The URL and the request of [FetchToken] (l. 130-149). *)
Definition tokenURL (c : Client) : string :=
  fmt.Sprintf "https://%s/oauth/token" [fmt.ArgStr (auth0Domain c)].

Definition tokenRequestBody (c : Client) : OAuthTokenRequest :=
  mkOAuthTokenRequest (clientID c) (clientSecret c) "service" "client_credentials".

Definition tokenRequest (c : Client) (body : string) : http.Request :=
  http.mkRequest http.MethodPost (tokenURL c) None
    (Some "application/json") None (Some body).

(** [FetchToken] (l. 129). *)
Definition FetchToken : M (string * Z * option error) :=
  c <- getClient ;;
  match marshalTokenRequest E (tokenRequestBody c) with
  | inr err =>
      ret ("", 0, Some (ErrorfW "failed to marshal token request: %w" [] (Some err)))
  | inl body =>
      match newRequestError E http.MethodPost (tokenURL c) with
      | Some err =>
          ret ("", 0, Some (ErrorfW "failed to create token request: %w" [] (Some err)))
      | None =>
          r <- Do (tokenRequest c body) ;;
          match r with
          | inr err =>
              ret ("", 0, Some (ErrorfW "failed to fetch token: %w" [] (Some err)))
          | inl resp =>
              if negb (http.StatusCode resp =? http.StatusOK) then
                ret ("", 0,
                     Some (Errorf "failed to fetch token: status %d"
                             [fmt.ArgInt (http.StatusCode resp)]))
              else
                match decodeTokenResponse E (http.Body resp) with
                | inr err =>
                    ret ("", 0,
                         Some (ErrorfW "failed to decode token response: %w" []
                                 (Some err)))
                | inl tokenResp =>
                    ret (AccessToken tokenResp, ExpiresIn tokenResp, None)
                end
          end
      end
  end.

(** The condition of l. 101 and l. 113:
    [c.accessToken != "" && time.Now().Add(tokenRefreshBuffer).Before(c.tokenExpiry)].
    The clock is read only when the token is not empty. *)
Definition cachedTokenValid : M bool :=
  c <- getClient ;;
  if String.eqb (accessToken c) "" then ret false
  else
    now <- Now ;;
    ret (time.Before (time.Add now tokenRefreshBuffer) (tokenExpiry c)).

(** [getToken] (l. 98): the check under the read lock, the check under the
    write lock, then the refresh. *)
Definition getToken : M (string * option error) :=
  valid <- cachedTokenValid ;;
  if valid then
    c <- getClient ;;
    ret (accessToken c, None)
  else
    valid' <- cachedTokenValid ;;
    if valid' then
      c <- getClient ;;
      ret (accessToken c, None)
    else
      '(token, expiresIn, err) <- FetchToken ;;
      match err with
      | Some e => ret ("", Some e)
      | None =>
          c <- getClient ;;
          putClient (with_accessToken token c) ;;;
          now <- Now ;;
          c' <- getClient ;;
          putClient
            (with_tokenExpiry
               (time.Add now (Int64.mul expiresIn time.Second)) c') ;;;
          ret (token, None)
      end.

(** The URL of [doRequest] (l. 208). *)
Definition requestURL (c : Client) (path : string) : string :=
  fmt.Sprintf "%s%s" [fmt.ArgStr (host c); fmt.ArgStr path].

(** The request of one attempt of [doRequest] (l. 209-216). *)
Definition authenticatedRequest (method url token : string)
    (jsonBody : option string) : http.Request :=
  http.mkRequest method url
    (Some (fmt.Sprintf "Bearer %s" [fmt.ArgStr token]))
    (Some "application/json") (Some "application/json") jsonBody.

(** The error after the retry loop, and of the last failed send. *)
Definition requestFailed (err : option error) : error :=
  ErrorfW "request failed after %d attempts: %w" [fmt.ArgInt (maxRetries + 1)] err.

(** The retry loop of [doRequest] (l. 195-249), from attempt [attempt] on.
    [fuel] bounds the number of turns; [doRequest] gives as many as the
    loop condition allows. *)
Fixpoint doRequest_loop (fuel : nat) (attempt : Z) (lastErr : option error)
    (method path : string) (jsonBody : option string)
    : M (option http.Response * option error) :=
  match fuel with
  | O => ret (None, Some (requestFailed lastErr))
  | S fuel' =>
      if negb (attempt <=? maxRetries) then
        ret (None, Some (requestFailed lastErr))
      else
        '(token, err) <- getToken ;;
        match err with
        | Some e => ret (None, Some e)
        | None =>
            c <- getClient ;;
            let url := requestURL c path in
            match newRequestError E method url with
            | Some e =>
                ret (None, Some (ErrorfW "failed to create request: %w" [] (Some e)))
            | None =>
                r <- Do (authenticatedRequest method url token jsonBody) ;;
                match r with
                | inr err =>
                    if attempt <? maxRetries then
                      Sleep (calculateBackoff attempt) ;;;
                      doRequest_loop fuel' (attempt + 1) (Some err)
                        method path jsonBody
                    else ret (None, Some (requestFailed (Some err)))
                | inl resp =>
                    if (http.StatusCode resp >=? 500) && (attempt <? maxRetries) then
                      let '(bodyBytes, _) := ReadAll (http.Body resp) in
                      let lastErr' :=
                        apiError (mkAPIError (http.StatusCode resp) bodyBytes) in
                      Sleep (calculateBackoff attempt) ;;;
                      doRequest_loop fuel' (attempt + 1) (Some lastErr')
                        method path jsonBody
                    else ret (Some resp, None)
                end
            end
        end
  end.

(** The marshalling of l. 183-192: [jsonBody] stays nil for a nil body. *)
Definition marshalRequestBody (body : option (Payload E))
    : option string + error :=
  match body with
  | None => inl None
  | Some b =>
      match marshalBody E b with
      | inl jsonBody => inl (Some jsonBody)
      | inr err => inr err
      end
  end.

(** [doRequest] (l. 181). *)
Definition doRequest (method path : string) (body : option (Payload E))
    : M (option http.Response * option error) :=
  match marshalRequestBody body with
  | inr err =>
      ret (None, Some (ErrorfW "failed to marshal request body: %w" [] (Some err)))
  | inl jsonBody =>
      doRequest_loop (Z.to_nat (maxRetries + 1)) 0 None method path jsonBody
  end.

(** What a nil pointer dereference leaves behind; no call reaches it. *)
Definition nilDereference : error :=
  errorString "runtime error: invalid memory address or nil pointer dereference".

(** [handleResponse] (l. 318). [result] is the decoder for the target, nil
    when there is none; the target's value is returned with the error. *)
Definition handleResponse {T : Type} (resp : option http.Response)
    (result : option (string -> T + error)) (target : T) : T * option error :=
  match resp with
  | None => (target, Some nilDereference)
  | Some resp =>
      let '(body, err) := ReadAll (http.Body resp) in
      match err with
      | Some e =>
          (target, Some (ErrorfW "failed to read response body: %w" [] (Some e)))
      | None =>
          if http.StatusCode resp >=? 400 then
            (target, Some (apiError (mkAPIError (http.StatusCode resp) body)))
          else
            match result with
            | Some unmarshal =>
                if (0 <? String.length body)%nat then
                  match unmarshal body with
                  | inr e =>
                      (target,
                       Some (ErrorfW "failed to decode response: %w" [] (Some e)))
                  | inl v => (v, None)
                  end
                else (target, None)
            | None => (target, None)
            end
      end
  end.

(** *** jobs.go *)

(** The paths of l. 34 and l. 54. *)
Definition jobPath (id : string) : string :=
  fmt.Sprintf EndpointJob [fmt.ArgStr (PathEscape E id)].

Definition jobsByNamePath (name : string) : string :=
  fmt.Sprintf "%s?name=%s" [fmt.ArgStr EndpointJobs; fmt.ArgStr (QueryEscape E name)].

(** [GetJob] (l. 33). *)
Definition GetJob (id : string) : M (option Job * option error) :=
  let path := jobPath id in
  '(resp, err) <- doRequest http.MethodGet path None ;;
  match err with
  | Some e => ret (None, Some e)
  | None =>
      let '(job, err) := handleResponse resp (Some (unmarshalJob E)) zeroJob in
      match err with
      | Some e => ret (None, Some e)
      | None => ret (Some job, None)
      end
  end.

(** [GetJobByName] (l. 53). *)
Definition GetJobByName (name : string) : M (option Job * option error) :=
  let path := jobsByNamePath name in
  '(resp, err) <- doRequest http.MethodGet path None ;;
  match err with
  | Some e => ret (None, Some e)
  | None =>
      let '(jobsResp, err) :=
        handleResponse resp (Some (unmarshalJobsResponse E)) zeroJobsResponse in
      match err with
      | Some e => ret (None, Some e)
      | None =>
          match Items jobsResp with
          | None => ret (None, None)
          | Some items =>
              if (List.length items =? 0)%nat then ret (None, None)
              else ret (nth_error items 0, None)
          end
      end
  end.

(** One turn of the loop of [WaitForState] (l. 124-155). *)
Definition WaitForState_turn (id : string) (desiredState : JobState)
    (deadline : time.Time) : M (LoopStep (option Job * option error)) :=
  now <- Now ;;
  if time.After now deadline then
    ret (Return (None,
                 Some (Errorf "timeout waiting for job %s to reach state %s"
                         [fmt.ArgStr id; fmt.ArgStr desiredState])))
  else
    '(job, err) <- GetJob id ;;
    match err with
    | Some e =>
        match e with
        | apiError apiErr =>
            if IsNotFound apiErr then
              if String.eqb desiredState JobStateDeleted then ret (Return (None, None))
              else ret (Return (None, Some e))
            else ret (Return (None, Some e))
        | _ => ret (Return (None, Some e))
        end
    | None =>
        match job with
        | None => ret (Return (None, Some nilDereference))
        | Some job =>
            if String.eqb (State job) desiredState then ret (Return (Some job, None))
            else if IsTerminal (State job) && negb (String.eqb (State job) desiredState)
            then
              ret (Return (Some job,
                           Some (Errorf "job %s reached terminal state %s instead of %s"
                                   [fmt.ArgStr id; fmt.ArgStr (State job);
                                    fmt.ArgStr desiredState])))
            else
              done <- selectDone ;;
              match done with
              | Some ctxErr => ret (Return (None, Some ctxErr))
              | None => ret Continue
              end
        end
    end.

(** [WaitForState] (l. 121). *)
Definition WaitForState (fuel : nat) (id : string) (desiredState : JobState)
    (timeout : time.Duration) (st : Store)
    : option ((option Job * option error) * Store) :=
  let (now, st1) := Now st in
  let deadline := time.Add now timeout in
  forever (WaitForState_turn id desiredState deadline) fuel st1.

(** One turn of the loop of [WaitForStableState] (l. 162-181). *)
Definition WaitForStableState_turn (id : string) (deadline : time.Time)
    : M (LoopStep (option Job * option error)) :=
  now <- Now ;;
  if time.After now deadline then
    ret (Return (None,
                 Some (Errorf "timeout waiting for job %s to reach a stable state"
                         [fmt.ArgStr id])))
  else
    '(job, err) <- GetJob id ;;
    match err with
    | Some e => ret (Return (None, Some e))
    | None =>
        match job with
        | None => ret (Return (None, Some nilDereference))
        | Some job =>
            if IsStable (State job) then ret (Return (Some job, None))
            else
              done <- selectDone ;;
              match done with
              | Some ctxErr => ret (Return (None, Some ctxErr))
              | None => ret Continue
              end
        end
    end.

(** [WaitForStableState] (l. 159). *)
Definition WaitForStableState (fuel : nat) (id : string)
    (timeout : time.Duration) (st : Store)
    : option ((option Job * option error) * Store) :=
  let (now, st1) := Now st in
  let deadline := time.Add now timeout in
  forever (WaitForStableState_turn id deadline) fuel st1.

(** One turn of the loop of [WaitForDeletion] (l. 188-210). *)
Definition WaitForDeletion_turn (id : string) (deadline : time.Time)
    : M (LoopStep (option error)) :=
  now <- Now ;;
  if time.After now deadline then
    ret (Return (Some (Errorf "timeout waiting for job %s to be deleted"
                         [fmt.ArgStr id])))
  else
    '(job, err) <- GetJob id ;;
    match err with
    | Some e =>
        match e with
        | apiError apiErr =>
            if IsNotFound apiErr then ret (Return None)
            else ret (Return (Some e))
        | _ => ret (Return (Some e))
        end
    | None =>
        match job with
        | None => ret (Return (Some nilDereference))
        | Some job =>
            if String.eqb (State job) JobStateDeleted then ret (Return None)
            else
              done <- selectDone ;;
              match done with
              | Some ctxErr => ret (Return (Some ctxErr))
              | None => ret Continue
              end
        end
    end.

(** [WaitForDeletion] (l. 185). *)
Definition WaitForDeletion (fuel : nat) (id : string)
    (timeout : time.Duration) (st : Store) : option (option error * Store) :=
  let (now, st1) := Now st in
  let deadline := time.Add now timeout in
  forever (WaitForDeletion_turn id deadline) fuel st1.

End Methods.

(** The authenticated requests among those sent: the attempts of
    [doRequest]. The token request of [FetchToken] carries no
    [Authorization] header. *)
Definition isAuthenticated (req : http.Request) : bool :=
  match http.Authorization req with
  | Some _ => true
  | None => false
  end.

Definition attempts (st : Store) : nat :=
  List.length (filter isAuthenticated (sent st)).

(** The requests sent to the token endpoint. *)
Definition tokenCalls (st : Store) : nat :=
  List.length (filter (fun req => negb (isAuthenticated req)) (sent st)).

(** ** Stores named in the statements *)

(** The deadline of a wait entered at [st0] (jobs.go, l. 122, 160, 186):
    the clock is read once, at entry. *)
Definition entryDeadline (E : Env) (timeout : time.Duration) (st0 : Store)
    : time.Time :=
  time.Add (clock E (nowCalls st0)) timeout.

(** The cached token serves each of the next [n] readings of the clock. *)
Definition tokenServes (E : Env) (st : Store) (n : nat) : Prop :=
  accessToken (client st) <> ""
  /\ forall i : nat, (i < n)%nat ->
       time.Before (time.Add (clock E (nowCalls st + i)) tokenRefreshBuffer)
         (tokenExpiry (client st)) = true.



(** ** Environments of the unit tests

    Stand-ins in the manner of the package's tests ([setupTestServer]): a
    scripted server, a clock that advances one millisecond per reading, a
    context that is never cancelled, and a codec in which a token response
    body is the token itself (valid for a day), a job body is the job's
    state name and a list body is the word "null", the word "empty" or the name of
    the single job listed. *)
Module Test.

Definition decodeToken (b : BodyStream) : OAuthTokenResponse + error :=
  match readErr b with
  | Some e => inr e
  | None => inl (mkOAuthTokenResponse (bytes b) "Bearer" 86400)
  end.

Definition decodeJob (body : string) : Job + error :=
  inl (mkJob "test-id-123" 1 "test_pipeline" body "RUNNING").

Definition decodeJobs (body : string) : JobsResponse + error :=
  if String.eqb body "null" then inl (mkJobsResponse None)
  else if String.eqb body "empty" then inl (mkJobsResponse (Some []))
  else inl (mkJobsResponse
              (Some [mkJob "test-id-123" 1 body "RUNNING" "RUNNING";
                     mkJob "test-id-456" 1 body "STOPPED" "STOPPED"])).

Definition env (server : nat -> http.Request -> http.Response + error) : Env :=
  {| clock := fun n => Z.of_nat n * time.Millisecond;
     roundTrip := server;
     ctxDone := fun _ => None;
     pollInterval := 10 * time.Millisecond;
     newRequestError := fun _ _ => None;
     PathEscape := fun s => s;
     QueryEscape := fun s => s;
     Payload := string;
     marshalBody := fun s => inl s;
     marshalTokenRequest := fun r => inl (ClientID r ++ ":" ++ ClientSecret r);
     decodeTokenResponse := decodeToken;
     unmarshalJob := decodeJob;
     unmarshalJobsResponse := decodeJobs |}.

Definition respond (code : Z) (body : string) : http.Response + error :=
  inl (http.mkResponse code (mkBody body None)).

(** The client of [setupTestServer]: a token cached for one hour. *)
Definition cachedClient : Client :=
  mkClient "http://127.0.0.1:8080" "test" "test" "test.auth0.com"
    "test-token" (3600 * time.Second).

(** A client whose token has run out. *)
Definition expiredClient : Client :=
  mkClient "http://127.0.0.1:8080" "test" "test" "test.auth0.com"
    "old-token" (- 3600 * time.Second).

Definition store (c : Client) : Store := mkStore c 0 [] [] 0.

(** Servers of client_test.go. *)
Definition always (code : Z) (body : string)
    : nat -> http.Request -> http.Response + error :=
  fun _ _ => respond code body.

Definition unavailableTwice : nat -> http.Request -> http.Response + error :=
  fun n _ =>
    if (n <? 2)%nat then respond 503 "service unavailable" else respond 200 "ok".

Definition pendingThenRunning : nat -> http.Request -> http.Response + error :=
  fun n _ => if (n <? 2)%nat then respond 200 "PENDING" else respond 200 "RUNNING".

Definition pendingThen (k : nat) (code : Z) (body : string)
    : nat -> http.Request -> http.Response + error :=
  fun n _ => if (n <? k)%nat then respond 200 "PENDING" else respond code body.

(** The identity provider answers, the API is not asked. *)
Definition tokenServer (code : Z) (body : string)
    : nat -> http.Request -> http.Response + error :=
  fun _ req =>
    if isAuthenticated req then respond 200 "RUNNING" else respond code body.


End Test.

(** ** The rest of the client package *)

(** [Config] (client.go, l. 64). *)
Module config.

Record Config : Type := mkConfig {
  Host : string;
  ClientID : string;
  ClientSecret : string;
  Auth0Domain : string
}.

End config.

(** The zero value of [time.Time], taken as the origin of the axis. *)
Definition zeroTime : time.Time := 0.

(** [NewClient] (client.go, l. 72): the token fields keep their zero
    values. *)
Definition NewClient (cfg : config.Config) : Client :=
  let auth0Domain :=
    if String.eqb (config.Auth0Domain cfg) "" then defaultAuth0Domain
    else config.Auth0Domain cfg in
  mkClient (config.Host cfg) (config.ClientID cfg) (config.ClientSecret cfg)
    auth0Domain "" zeroTime.

Definition MethodPut : string := "PUT".
Definition MethodDelete : string := "DELETE".

Section Operations.

Variable E : Env.

(** [CreateAsyncJob] (jobs.go, l. 18). *)
Definition CreateAsyncJob (req : Payload E) : M (option Job * option error) :=
  '(resp, err) <- doRequest E http.MethodPost EndpointJobsAsync (Some req) ;;
  match err with
  | Some e => ret (None, Some e)
  | None =>
      let '(job, err) := handleResponse resp (Some (unmarshalJob E)) zeroJob in
      match err with
      | Some e => ret (None, Some e)
      | None => ret (Some job, None)
      end
  end.

(** The path of [UpdateJob] (jobs.go, l. 82). *)
Definition updatePath (id : string) (rollbackEnabled : bool) : string :=
  fmt.Sprintf (EndpointJob ++ "?rollbackEnabled=%t")
    [fmt.ArgStr (PathEscape E id); fmt.ArgBool rollbackEnabled].

(** [UpdateJob] (jobs.go, l. 81). *)
Definition UpdateJob (id : string) (req : Payload E) (rollbackEnabled : bool)
    : M (option Job * option error) :=
  let path := updatePath id rollbackEnabled in
  '(resp, err) <- doRequest E MethodPut path (Some req) ;;
  match err with
  | Some e => ret (None, Some e)
  | None =>
      let '(job, err) := handleResponse resp (Some (unmarshalJob E)) zeroJob in
      match err with
      | Some e => ret (None, Some e)
      | None => ret (Some job, None)
      end
  end.

(** [DeleteJob] (jobs.go, l. 98): [handleResponse] is given no target. *)
Definition DeleteJob (id : string) : M (option error) :=
  let path := jobPath E id in
  '(resp, err) <- doRequest E MethodDelete path None ;;
  match err with
  | Some e => ret (Some e)
  | None => ret (snd (handleResponse (T := unit) resp None tt))
  end.

End Operations.

(** ** Notions used in the statements about the executor *)

(** The sleeps of [n] retries that start at attempt [attempt], latest
    first, as [time.Sleep] records them. *)
Fixpoint backoffs (attempt : Z) (n : nat) : list time.Duration :=
  match n with
  | O => []
  | S n' => (backoffs (attempt + 1) n' ++ [calculateBackoff attempt])%list
  end.

(** What obtaining a token may do to the store: the host is kept, nothing
    sleeps, no [select] runs, the clock is only read, and the requests
    sent carry no [Authorization] header. *)
Definition tokenTraffic (st st' : Store) : Prop :=
  host (client st') = host (client st)
  /\ slept st' = slept st
  /\ selects st' = selects st
  /\ (nowCalls st <= nowCalls st')%nat
  /\ exists new : list http.Request,
       sent st' = (new ++ sent st)%list
       /\ Forall (fun req => isAuthenticated req = false) new.

(** The outcomes of a send that the loop of [doRequest] answers with a
    retry while attempts remain: a transport error, or a response with a
    status of 500 or more. *)
Definition retryable (outcome : http.Response + error) : Prop :=
  match outcome with
  | inl resp => 500 <= http.StatusCode resp
  | inr _ => True
  end.

(** The request of the turn of [doRequest] that obtained [token] at store
    [st1]. *)
Definition attemptRequest (method path : string) (jsonBody : option string)
    (token : string) (st1 : Store) : http.Request :=
  authenticatedRequest method (requestURL (client st1) path) token jsonBody.

(** The shape of an attempt of [doRequest] for a method, a URL and the
    marshalled body. *)
Definition attemptOf (method url : string) (jsonBody : option string)
    (req : http.Request) : Prop :=
  http.Method req = method
  /\ http.URL req = url
  /\ http.ReqBody req = jsonBody
  /\ http.ContentType req = Some "application/json"
  /\ http.Accept req = Some "application/json"
  /\ exists token : string, http.Authorization req = Some ("Bearer " ++ token).

(** ** The pipeline resource: deletion *)

Module pipeline.

(** The attributes of [PipelineResourceModel] that [Delete] reads, by
    their values ([ValueString], [ValueBool], [ValueInt64]). *)
Record PipelineResourceModel : Type := mkModel {
  ID : string;
  WaitForState : bool;
  StateTimeout : Z
}.

(** An error diagnostic: summary and detail. *)
Record Diagnostic : Type := mkDiagnostic {
  Summary : string;
  Detail : string
}.

(** [Delete] (resource.go, l. 324), from the point where the prior state
    has been read into [state]; the result is the list of diagnostics
    added to the response. [fuel] is that of the wait. *)
Definition Delete (E : Env) (fuel : nat) (state : PipelineResourceModel)
    (st : Store) : option (list Diagnostic * Store) :=
  let id := ID state in
  let '(err, st1) := DeleteJob E id st in
  match err with
  | Some e =>
      match e with
      | apiError apiErr =>
          if IsNotFound apiErr then Some ([], st1)
          else Some ([mkDiagnostic "Failed to delete pipeline" (Error e)], st1)
      | _ => Some ([mkDiagnostic "Failed to delete pipeline" (Error e)], st1)
      end
  | None =>
      if WaitForState state then
        let timeout := Int64.mul (StateTimeout state) time.Second in
        match WaitForDeletion E fuel id timeout st1 with
        | None => None
        | Some (Some e, st2) =>
            Some ([mkDiagnostic "Pipeline deletion may not be complete"
                     (fmt.Sprintf
                        "Delete request accepted but pipeline may still be deleting: %s"
                        [fmt.ArgStr (Error e)])],
                  st2)
        | Some (None, st2) => Some ([], st2)
        end
      else Some ([], st1)
  end.

End pipeline.

(** ** Further test environments *)

Module Scenario.

(** A transport that never connects. *)
Definition refused : nat -> http.Request -> http.Response + error :=
  fun _ _ => inr (errorString "connection refused").

(** A transport that fails once and then delivers. *)
Definition resetOnce : nat -> http.Request -> http.Response + error :=
  fun n _ =>
    if (n <? 1)%nat then inr (errorString "connection reset")
    else Test.respond 200 "ok".

(** The identity provider rejects the credentials; the API would answer. *)
Definition rejecting : nat -> http.Request -> http.Response + error :=
  Test.tokenServer 401 "access_denied".

(** A clock that advances one second per reading. *)
Definition slowEnv (server : nat -> http.Request -> http.Response + error)
    : Env :=
  {| clock := fun n => Z.of_nat n * time.Second;
     roundTrip := server;
     ctxDone := fun _ => None;
     pollInterval := 5 * time.Second;
     newRequestError := fun _ _ => None;
     PathEscape := fun s => s;
     QueryEscape := fun s => s;
     Payload := string;
     marshalBody := fun s => inl s;
     marshalTokenRequest := fun r => inl (ClientID r ++ ":" ++ ClientSecret r);
     decodeTokenResponse := Test.decodeToken;
     unmarshalJob := Test.decodeJob;
     unmarshalJobsResponse := Test.decodeJobs |}.

(** A context that is cancelled at the first [select]. *)
Definition cancelledEnv (server : nat -> http.Request -> http.Response + error)
    : Env :=
  {| clock := fun n => Z.of_nat n * time.Millisecond;
     roundTrip := server;
     ctxDone := fun _ => Some (errorString "context canceled");
     pollInterval := 10 * time.Millisecond;
     newRequestError := fun _ _ => None;
     PathEscape := fun s => s;
     QueryEscape := fun s => s;
     Payload := string;
     marshalBody := fun s => inl s;
     marshalTokenRequest := fun r => inl (ClientID r ++ ":" ++ ClientSecret r);
     decodeTokenResponse := Test.decodeToken;
     unmarshalJob := Test.decodeJob;
     unmarshalJobsResponse := Test.decodeJobs |}.

(** A payload that cannot be marshalled. *)
Definition unmarshallableEnv
    (server : nat -> http.Request -> http.Response + error) : Env :=
  {| clock := fun n => Z.of_nat n * time.Millisecond;
     roundTrip := server;
     ctxDone := fun _ => None;
     pollInterval := 10 * time.Millisecond;
     newRequestError := fun _ _ => None;
     PathEscape := fun s => s;
     QueryEscape := fun s => s;
     Payload := string;
     marshalBody := fun _ => inr (errorString "json: unsupported value");
     marshalTokenRequest := fun r => inl (ClientID r ++ ":" ++ ClientSecret r);
     decodeTokenResponse := Test.decodeToken;
     unmarshalJob := Test.decodeJob;
     unmarshalJobsResponse := Test.decodeJobs |}.

Definition freshClient : Client :=
  NewClient (config.mkConfig "http://127.0.0.1:8080" "test" "test" "").

(** An identity provider whose tokens live for 30 seconds. *)
Definition shortTokenEnv
    (server : nat -> http.Request -> http.Response + error) : Env :=
  {| clock := fun n => Z.of_nat n * time.Millisecond;
     roundTrip := server;
     ctxDone := fun _ => None;
     pollInterval := 10 * time.Millisecond;
     newRequestError := fun _ _ => None;
     PathEscape := fun s => s;
     QueryEscape := fun s => s;
     Payload := string;
     marshalBody := fun s => inl s;
     marshalTokenRequest := fun r => inl (ClientID r ++ ":" ++ ClientSecret r);
     decodeTokenResponse :=
       fun b => inl (mkOAuthTokenResponse (bytes b) "Bearer" 30);
     unmarshalJob := Test.decodeJob;
     unmarshalJobsResponse := Test.decodeJobs |}.

End Scenario.

(** * Properties *)

(** ** Arithmetic of int64 *)

Lemma wrap64_in_range (z : Z) :
  Int64.in_range z -> Int64.wrap64 z = z.
Proof.
  unfold Int64.in_range, Int64.wrap64, Int64.half_modulus, Int64.modulus.
  intros Hz. rewrite Z.mod_small; lia.
Qed.

Lemma pow2_le_pow2_36 (n : Z) : 0 <= n <= 36 -> 0 < 2 ^ n <= 2 ^ 36.
Proof.
  intros Hn. split.
  - apply Z.pow_pos_nonneg; lia.
  - apply Z.pow_le_mono_r; lia.
Qed.

(** ** The backoff *)

(** Up to attempt 36 the product fits in int64 and the backoff is the
    documented formula. *)
Lemma calculateBackoff_formula (n : Z) :
  0 <= n <= 36 ->
  calculateBackoff n = Z.min (100 * time.Millisecond * 2 ^ n) (5000 * time.Millisecond).
Proof.
  intros Hn. pose proof (pow2_le_pow2_36 n Hn) as Hp.
  change (2 ^ 36) with 68719476736 in Hp.
  unfold calculateBackoff, Int64.mul, Int64.shl, Int64.to_uint.
  replace (n mod Int64.modulus) with n
    by (symmetry; apply Z.mod_small; unfold Int64.modulus; lia).
  replace (n <? 64) with true by (symmetry; apply Z.ltb_lt; lia).
  rewrite Z.mul_1_l.
  rewrite (wrap64_in_range (2 ^ n))
    by (unfold Int64.in_range, Int64.half_modulus; lia).
  unfold initialRetryDelay, maxRetryDelay, time.Millisecond, time.Second.
  rewrite wrap64_in_range
    by (unfold Int64.in_range, Int64.half_modulus; lia).
  destruct (Z.gtb_spec (100 * 1000000 * 2 ^ n) (5 * 1000000000)); lia.
Qed.

Example calculateBackoff_0 : calculateBackoff 0 = 100 * time.Millisecond.
Proof. reflexivity. Qed.

Example calculateBackoff_6 : calculateBackoff 6 = 5000 * time.Millisecond.
Proof. reflexivity. Qed.

Example calculateBackoff_10 : calculateBackoff 10 = 5000 * time.Millisecond.
Proof. reflexivity. Qed.

(** C3. The backoff is documented as min(initialDelay * 2^attempt,
    maxDelay). At attempt 37 the int64 product 10^8 * 2^37 has left the
    range: the value computed is negative, below the cap, and is returned
    as it is; from attempt 56 on the product is 0. Neither is the 5000ms
    of the formula. *)
Theorem calculateBackoff_overflow :
  calculateBackoff 37 = -4702848726509551616
  /\ calculateBackoff 56 = 0
  /\ Z.min (100 * time.Millisecond * 2 ^ 37) (5000 * time.Millisecond)
     = 5000 * time.Millisecond
  /\ calculateBackoff 37
     <> Z.min (100 * time.Millisecond * 2 ^ 37) (5000 * time.Millisecond).
Proof.
  repeat split; try reflexivity.
  vm_compute. discriminate.
Qed.

(** ** The error classifier *)

Lemma append_empty_r (s : string) : s ++ "" = s.
Proof.
  induction s as [| c s IH]; simpl; [reflexivity | now rewrite IH].
Qed.

Example APIError_Error_404 :
  APIError_Error (mkAPIError 404 "job not found")
  = "API error (status 404): job not found".
Proof. reflexivity. Qed.

Example APIError_Error_negative :
  APIError_Error (mkAPIError (-1) "") = "API error (status -1): ".
Proof. reflexivity. Qed.

(** C7. Each predicate of an [APIError] is decided by the status code
    alone: bad request at 400, unauthorized at 401, forbidden at 403, not
    found at 404, conflict at 409, client error in 400..499, server error
    from 500 on, retryable exactly when server error; [Error()] is
    "API error (status {code}): {message}" with the code in decimal. *)
Theorem APIError_classification (c : Z) (m : string) :
  let e := mkAPIError c m in
  (IsBadRequest e = true <-> c = 400)
  /\ (IsUnauthorized e = true <-> c = 401)
  /\ (IsForbidden e = true <-> c = 403)
  /\ (IsNotFound e = true <-> c = 404)
  /\ (IsConflict e = true <-> c = 409)
  /\ (IsClientError e = true <-> 400 <= c < 500)
  /\ (IsServerError e = true <-> c >= 500)
  /\ IsRetryable e = IsServerError e
  /\ Error (apiError e) = "API error (status " ++ fmt.FormatInt c ++ "): " ++ m.
Proof.
  cbv zeta.
  unfold IsBadRequest, IsUnauthorized, IsForbidden, IsNotFound, IsConflict,
    IsClientError, IsServerError, IsRetryable; cbn [StatusCode Message].
  unfold http.StatusBadRequest, http.StatusUnauthorized, http.StatusForbidden,
    http.StatusNotFound, http.StatusConflict.
  repeat split; try (apply Z.eqb_eq); try (intros ->; apply Z.eqb_refl).
  all: try (rewrite andb_true_iff, Z.geb_le, Z.ltb_lt in *; lia).
  all: try (intros H; apply andb_true_iff; rewrite Z.geb_le, Z.ltb_lt; lia).
  all: try (rewrite Z.geb_le; lia).
  all: try (intros H; apply Z.geb_le; lia).
  cbn. now rewrite append_empty_r.
Qed.

(** ** Loops *)

(** Turns that fall through only use up fuel. *)
Lemma forever_after_turns {R : Type} (body : M (LoopStep R)) (k : nat) :
  forall (st st' : Store) (fuel : nat),
    turns body k st = Some st' ->
    forever body (k + fuel) st = forever body fuel st'.
Proof.
  induction k as [| k IH]; intros st st' fuel Hk; simpl in *.
  - now inversion Hk.
  - destruct (body st) as [[| r] st1]; [| discriminate].
    now apply IH.
Qed.

(** ** The token manager *)

Section TokenManager.

Variable E : Env.

Lemma cachedTokenValid_empty (st : Store) :
  accessToken (client st) = "" ->
  cachedTokenValid E st = (false, st).
Proof.
  intros He. unfold cachedTokenValid, bind, getClient, ret.
  now rewrite He.
Qed.

Lemma cachedTokenValid_nonempty (st : Store) :
  accessToken (client st) <> "" ->
  cachedTokenValid E st
  = (time.Before (time.Add (clock E (nowCalls st)) tokenRefreshBuffer)
       (tokenExpiry (client st)), tick st).
Proof.
  intros Hne. unfold cachedTokenValid, bind, getClient, ret, Now.
  destruct (String.eqb_spec (accessToken (client st)) ""); [contradiction |].
  reflexivity.
Qed.

Lemma cachedTokenValid_client (st : Store) :
  client (snd (cachedTokenValid E st)) = client st
  /\ sent (snd (cachedTokenValid E st)) = sent st.
Proof.
  unfold cachedTokenValid, bind, getClient, ret, Now.
  destruct (String.eqb (accessToken (client st)) ""); simpl; auto.
Qed.

(** [FetchToken] writes nothing to the client struct and sends at most
    one request, which carries no [Authorization] header. *)
Lemma FetchToken_client (st : Store) :
  client (snd (FetchToken E st)) = client st
  /\ attempts (snd (FetchToken E st)) = attempts st.
Proof.
  unfold FetchToken, bind, getClient, ret, Do.
  destruct (marshalTokenRequest E _); [| simpl; auto].
  destruct (newRequestError E _ _); [simpl; auto |].
  destruct (roundTrip E _ _) as [resp | err]; [| simpl; auto].
  destruct (negb _); [simpl; auto |].
  destruct (decodeTokenResponse E _); simpl; auto.
Qed.


Lemma getToken_stale (st st1 st2 : Store) :
  cachedTokenValid E st = (false, st1) ->
  cachedTokenValid E st1 = (false, st2) ->
  getToken E st =
    (let '((token, expiresIn, err), st3) := FetchToken E st2 in
     match err with
     | Some e => (("", Some e), st3)
     | None =>
         ((token, None),
          tick (with_client
                  (with_tokenExpiry
                     (time.Add (clock E (nowCalls st3))
                        (Int64.mul expiresIn time.Second))
                     (with_accessToken token (client st3)))
                  st3))
     end).
Proof.
  intros H1 H2. unfold getToken, bind at 1. rewrite H1.
  unfold bind at 1. rewrite H2.
  unfold bind at 1.
  destruct (FetchToken E st2) as [[[token expiresIn] [e |]] st3]; reflexivity.
Qed.

End TokenManager.





(** C10. When the cache does not serve and the refresh fails, [getToken]
    returns the empty token with the error of [FetchToken], and the cached
    token and its expiry are what they were before the call. *)
Theorem getToken_failed_refresh_keeps_cache
    (E : Env) (st st1 st2 st3 : Store) (tok : string) (exp : Z) (err : error) :
  cachedTokenValid E st = (false, st1) ->
  cachedTokenValid E st1 = (false, st2) ->
  FetchToken E st2 = ((tok, exp, Some err), st3) ->
  getToken E st = (("", Some err), st3)
  /\ accessToken (client st3) = accessToken (client st)
  /\ tokenExpiry (client st3) = tokenExpiry (client st).
Proof.
  intros H1 H2 Hfetch.
  rewrite (getToken_stale E st st1 st2 H1 H2), Hfetch.
  split; [reflexivity |].
  pose proof (proj1 (cachedTokenValid_client E st)) as Hc1.
  pose proof (proj1 (cachedTokenValid_client E st1)) as Hc2.
  pose proof (proj1 (FetchToken_client E st2)) as Hc3.
  rewrite H1 in Hc1. rewrite H2 in Hc2. rewrite Hfetch in Hc3.
  simpl in Hc1, Hc2, Hc3.
  rewrite Hc3, Hc2, Hc1. split; reflexivity.
Qed.

Lemma getToken_failed_refresh_keeps_cache_witness :
  getToken (Test.env (Test.tokenServer 401 "access_denied"))
    (Test.store Test.expiredClient)
  = (("", Some (errorString "failed to fetch token: status 401")),
     record_request (tokenRequest Test.expiredClient "test:test")
       (tick (tick (Test.store Test.expiredClient))))
  /\ accessToken
       (client (record_request (tokenRequest Test.expiredClient "test:test")
                  (tick (tick (Test.store Test.expiredClient)))))
     = "old-token"
  /\ tokenExpiry
       (client (record_request (tokenRequest Test.expiredClient "test:test")
                  (tick (tick (Test.store Test.expiredClient)))))
     = - 3600 * time.Second.
Proof.
  apply (getToken_failed_refresh_keeps_cache
           (Test.env (Test.tokenServer 401 "access_denied"))
           (Test.store Test.expiredClient)
           (tick (Test.store Test.expiredClient))
           (tick (tick (Test.store Test.expiredClient)))
           _ "" 0); reflexivity.
Defined.

(** Whatever path it takes, a call of [getToken] that returns an error
    returns the empty token and leaves the client struct untouched. *)
Lemma getToken_error_keeps_client (E : Env) (st : Store) :
  snd (fst (getToken E st)) <> None ->
  fst (fst (getToken E st)) = ""
  /\ client (snd (getToken E st)) = client st.
Proof.
  destruct (cachedTokenValid E st) as [v1 st1] eqn:H1.
  pose proof (proj1 (cachedTokenValid_client E st)) as Hc1.
  rewrite H1 in Hc1. simpl in Hc1.
  destruct v1.
  - unfold getToken, bind at 1. rewrite H1. simpl. congruence.
  - destruct (cachedTokenValid E st1) as [v2 st2] eqn:H2.
    pose proof (proj1 (cachedTokenValid_client E st1)) as Hc2.
    rewrite H2 in Hc2. simpl in Hc2.
    destruct v2.
    + unfold getToken, bind at 1. rewrite H1.
      unfold bind at 1. rewrite H2. simpl. congruence.
    + rewrite (getToken_stale E st st1 st2 H1 H2).
      pose proof (proj1 (FetchToken_client E st2)) as Hc3.
      destruct (FetchToken E st2) as [[[token expiresIn] [e |]] st3];
        simpl in *; [| congruence].
      intros _. split; congruence.
Qed.

(** C9. When the token endpoint answers with a status other than 200,
    [FetchToken] fails with the error whose message is "failed to fetch
    token: status {code}"; the error is built from the status code alone,
    whatever the body of the response. *)
Theorem FetchToken_non200_message
    (E : Env) (st : Store) (body : string) (code : Z) (b : BodyStream) :
  marshalTokenRequest E (tokenRequestBody (client st)) = inl body ->
  newRequestError E http.MethodPost (tokenURL (client st)) = None ->
  roundTrip E (List.length (sent st)) (tokenRequest (client st) body)
  = inl (http.mkResponse code b) ->
  code <> 200 ->
  FetchToken E st
  = (("", 0,
      Some (errorString ("failed to fetch token: status " ++ fmt.FormatInt code))),
     record_request (tokenRequest (client st) body) st)
  /\ forall err, snd (fst (FetchToken E st)) = Some err ->
       Error err = "failed to fetch token: status " ++ fmt.FormatInt code.
Proof.
  intros Hm Hn Hr Hcode.
  assert (Hf : FetchToken E st
    = (("", 0,
        Some (errorString ("failed to fetch token: status " ++ fmt.FormatInt code))),
       record_request (tokenRequest (client st) body) st)).
  { unfold FetchToken, bind, getClient, ret, Do.
    rewrite Hm, Hn, Hr. cbn [http.StatusCode].
    destruct (Z.eqb_spec code http.StatusOK) as [He | _]; [contradiction |].
    cbn [negb]. unfold Errorf. cbn. now rewrite append_empty_r. }
  split; [exact Hf |].
  rewrite Hf. cbn. intros err Herr. inversion Herr. reflexivity.
Qed.

Lemma FetchToken_non200_message_witness :
  FetchToken (Test.env (Test.tokenServer 401 "access_denied"))
    (Test.store Test.expiredClient)
  = (("", 0, Some (errorString "failed to fetch token: status 401")),
     record_request (tokenRequest Test.expiredClient "test:test")
       (Test.store Test.expiredClient))
  /\ forall err,
       snd (fst (FetchToken (Test.env (Test.tokenServer 401 "access_denied"))
                   (Test.store Test.expiredClient))) = Some err ->
       Error err = "failed to fetch token: status 401".
Proof.
  apply (FetchToken_non200_message
           (Test.env (Test.tokenServer 401 "access_denied"))
           (Test.store Test.expiredClient)
           "test:test" 401 (mkBody "access_denied" None));
    try reflexivity.
  unfold not; intros H; discriminate H.
Defined.

(** ** The state-wait engine *)

Lemma forever_return {R : Type} (body : M (LoopStep R)) (fuel : nat)
    (st st' : Store) (r : R) :
  body st = (Return r, st') ->
  forever body (S fuel) st = Some (r, st').
Proof.
  intros Hb. simpl. now rewrite Hb.
Qed.

(** A [return] in the turn after [k] turns that fell through. *)
Lemma forever_return_after {R : Type} (body : M (LoopStep R)) (k fuel : nat)
    (st0 st st' : Store) (r : R) :
  turns body k st0 = Some st ->
  body st = (Return r, st') ->
  forever body (k + S fuel) st0 = Some (r, st').
Proof.
  intros Hk Hb.
  rewrite (forever_after_turns body k st0 st (S fuel) Hk).
  now apply forever_return.
Qed.

Lemma IsTerminal_states (s : JobState) :
  IsTerminal s = true
  <-> s = "FINISHED" \/ s = "FAILED" \/ s = "CANCELLED" \/ s = "DELETED".
Proof.
  unfold IsTerminal, JobStateFinished, JobStateFailed, JobStateCancelled,
    JobStateDeleted.
  rewrite !orb_true_iff, !String.eqb_eq. tauto.
Qed.

Section WaitEngine.

Variable E : Env.
Variables (id : string) (timeout : time.Duration).

Lemma WaitForState_timeout_turn (desiredState : JobState) (d : time.Time)
    (st : Store) :
  time.After (clock E (nowCalls st)) d = true ->
  WaitForState_turn E id desiredState d st
  = (Return (None,
             Some (errorString
                     ("timeout waiting for job " ++ id ++ " to reach state "
                      ++ desiredState))),
     tick st).
Proof.
  intros Hafter. unfold WaitForState_turn, bind, Now, ret.
  rewrite Hafter. unfold Errorf. cbn. now rewrite append_empty_r.
Qed.

Lemma WaitForDeletion_timeout_turn (d : time.Time) (st : Store) :
  time.After (clock E (nowCalls st)) d = true ->
  WaitForDeletion_turn E id d st
  = (Return (Some (errorString
                     ("timeout waiting for job " ++ id ++ " to be deleted"))),
     tick st).
Proof.
  intros Hafter. unfold WaitForDeletion_turn, bind, Now, ret.
  rewrite Hafter. reflexivity.
Qed.

(** C8. The deadline is the clock reading at entry plus the timeout. In
    any turn of the loop that starts with the clock after the deadline,
    [WaitForState] returns no job and the error "timeout waiting for job
    {id} to reach state {state}", and [WaitForDeletion] returns the error
    "timeout waiting for job {id} to be deleted". *)
Theorem wait_timeout_messages
    (desiredState : JobState) (st0 : Store) (k fuel : nat) :
  (forall st : Store,
     turns (WaitForState_turn E id desiredState (entryDeadline E timeout st0)) k (tick st0)
     = Some st ->
     time.After (clock E (nowCalls st)) (entryDeadline E timeout st0) = true ->
     WaitForState E (k + S fuel) id desiredState timeout st0
     = Some ((None,
              Some (errorString
                      ("timeout waiting for job " ++ id ++ " to reach state "
                       ++ desiredState))),
             tick st))
  /\
  (forall st : Store,
     turns (WaitForDeletion_turn E id (entryDeadline E timeout st0)) k (tick st0) = Some st ->
     time.After (clock E (nowCalls st)) (entryDeadline E timeout st0) = true ->
     WaitForDeletion E (k + S fuel) id timeout st0
     = Some (Some (errorString
                     ("timeout waiting for job " ++ id ++ " to be deleted")),
             tick st)).
Proof.
  split; intros st Hk Hafter.
  - unfold WaitForState, Now.
    apply (forever_return_after _ k fuel _ st); [exact Hk |].
    now apply WaitForState_timeout_turn.
  - unfold WaitForDeletion, Now.
    apply (forever_return_after _ k fuel _ st); [exact Hk |].
    now apply WaitForDeletion_timeout_turn.
Qed.

(** C4. Waiting for DELETED: in any turn of the loop whose read of the job
    fails with an [APIError] that is not-found, [WaitForState] returns no
    job and no error. *)
Theorem WaitForState_deleted_not_found
    (st0 st st' : Store) (k fuel : nat) (job : option Job) (apiErr : APIError) :
  turns (WaitForState_turn E id JobStateDeleted (entryDeadline E timeout st0)) k (tick st0)
  = Some st ->
  time.After (clock E (nowCalls st)) (entryDeadline E timeout st0) = false ->
  GetJob E id (tick st) = ((job, Some (apiError apiErr)), st') ->
  IsNotFound apiErr = true ->
  WaitForState E (k + S fuel) id JobStateDeleted timeout st0
  = Some ((None, None), st').
Proof.
  intros Hk Hafter Hget Hnf.
  unfold WaitForState, Now.
  apply (forever_return_after _ k fuel _ st); [exact Hk |].
  unfold WaitForState_turn, bind at 1. unfold Now.
  fold (entryDeadline E timeout st0). rewrite Hafter.
  unfold bind. rewrite Hget, Hnf. reflexivity.
Qed.

(** C6. In any turn of the loop whose read returns a job whose state is
    FINISHED, FAILED, CANCELLED or DELETED and is not the desired one,
    [WaitForState] returns at once, with that job and the error "job {id}
    reached terminal state {state} instead of {desired}": each of the four
    states is terminal for [IsTerminal], and none of them is polled
    again. *)
Theorem WaitForState_terminal_mismatch
    (desiredState : JobState) (st0 st st' : Store) (k fuel : nat) (job : Job) :
  turns (WaitForState_turn E id desiredState (entryDeadline E timeout st0)) k (tick st0)
  = Some st ->
  time.After (clock E (nowCalls st)) (entryDeadline E timeout st0) = false ->
  GetJob E id (tick st) = ((Some job, None), st') ->
  State job = "FINISHED" \/ State job = "FAILED"
  \/ State job = "CANCELLED" \/ State job = "DELETED" ->
  State job <> desiredState ->
  IsTerminal (State job) = true
  /\ exists err : error,
       WaitForState E (k + S fuel) id desiredState timeout st0
       = Some ((Some job, Some err), st')
       /\ Error err
          = "job " ++ id ++ " reached terminal state " ++ State job
            ++ " instead of " ++ desiredState.
Proof.
  intros Hk Hafter Hget Hname Hneq.
  assert (Hterm : IsTerminal (State job) = true).
  { unfold IsTerminal, JobStateFinished, JobStateFailed, JobStateCancelled,
      JobStateDeleted.
    destruct Hname as [-> | [-> | [-> | ->]]]; reflexivity. }
  split; [exact Hterm |].
  eexists. split.
  - unfold WaitForState, Now.
    apply (forever_return_after _ k fuel _ st); [exact Hk |].
    unfold WaitForState_turn, bind at 1. unfold Now.
    fold (entryDeadline E timeout st0). rewrite Hafter.
    unfold bind. rewrite Hget.
    destruct (String.eqb_spec (State job) desiredState) as [Heq | _];
      [contradiction |].
    rewrite Hterm. cbn [andb negb]. unfold ret. reflexivity.
  - unfold Errorf. cbn. now rewrite append_empty_r.
Qed.

End WaitEngine.

Lemma wait_timeout_messages_witness :
  option_map fst
    (WaitForState (Test.env (Test.always 200 "PENDING")) (3 + 1)
       "test-id-123" JobStateRunning (5 * time.Millisecond)
       (Test.store Test.cachedClient))
  = Some (None,
          Some (errorString
                  "timeout waiting for job test-id-123 to reach state RUNNING"))
  /\ option_map fst
       (WaitForDeletion (Test.env (Test.always 200 "PENDING")) (3 + 1)
          "test-id-123" (5 * time.Millisecond) (Test.store Test.cachedClient))
     = Some (Some (errorString
                     "timeout waiting for job test-id-123 to be deleted")).
Proof.
  split.
  - erewrite (proj1 (wait_timeout_messages
                       (Test.env (Test.always 200 "PENDING"))
                       "test-id-123" (5 * time.Millisecond) JobStateRunning
                       (Test.store Test.cachedClient) 3 0)).
    + reflexivity.
    + vm_compute. reflexivity.
    + reflexivity.
  - erewrite (proj2 (wait_timeout_messages
                       (Test.env (Test.always 200 "PENDING"))
                       "test-id-123" (5 * time.Millisecond) JobStateRunning
                       (Test.store Test.cachedClient) 3 0)).
    + reflexivity.
    + vm_compute. reflexivity.
    + reflexivity.
Defined.

Lemma WaitForState_deleted_not_found_witness :
  option_map fst
    (WaitForState (Test.env (Test.pendingThen 1 404 "job not found")) (1 + 1)
       "test-id-123" JobStateDeleted (1 * time.Second)
       (Test.store Test.cachedClient))
  = Some (None, None).
Proof.
  erewrite (WaitForState_deleted_not_found
              (Test.env (Test.pendingThen 1 404 "job not found"))
              "test-id-123" (1 * time.Second)
              (Test.store Test.cachedClient) _ _ 1 0 None
              (mkAPIError 404 "job not found")).
  - reflexivity.
  - vm_compute. reflexivity.
  - reflexivity.
  - vm_compute. reflexivity.
  - reflexivity.
Defined.

Lemma WaitForState_terminal_mismatch_witness :
  (exists err : error,
     option_map fst
       (WaitForState (Test.env (Test.pendingThen 1 200 "FAILED")) (1 + 1)
          "test-id-123" JobStateRunning (1 * time.Second)
          (Test.store Test.cachedClient))
     = Some (Some (mkJob "test-id-123" 1 "test_pipeline" "FAILED" "RUNNING"),
             Some err)
     /\ Error err
        = "job test-id-123 reached terminal state FAILED instead of RUNNING")
  /\ (exists err : error,
        option_map fst
          (WaitForState (Test.env (Test.pendingThen 1 200 "CANCELLED")) (1 + 1)
             "test-id-123" JobStateDeleted (1 * time.Second)
             (Test.store Test.cachedClient))
        = Some (Some (mkJob "test-id-123" 1 "test_pipeline" "CANCELLED" "RUNNING"),
                Some err)
        /\ Error err
           = "job test-id-123 reached terminal state CANCELLED instead of DELETED").
Proof.
  split.
  - epose proof (WaitForState_terminal_mismatch
                   (Test.env (Test.pendingThen 1 200 "FAILED"))
                   "test-id-123" (1 * time.Second) JobStateRunning
                   (Test.store Test.cachedClient) _ _ 1 0
                   (mkJob "test-id-123" 1 "test_pipeline" "FAILED" "RUNNING"))
      as H.
    edestruct H as (_ & err & Hw & Hmsg).
    + vm_compute. reflexivity.
    + reflexivity.
    + vm_compute. reflexivity.
    + right. left. reflexivity.
    + simpl. discriminate.
    + exists err. rewrite Hw. split; [reflexivity | exact Hmsg].
  - epose proof (WaitForState_terminal_mismatch
                   (Test.env (Test.pendingThen 1 200 "CANCELLED"))
                   "test-id-123" (1 * time.Second) JobStateDeleted
                   (Test.store Test.cachedClient) _ _ 1 0
                   (mkJob "test-id-123" 1 "test_pipeline" "CANCELLED" "RUNNING"))
      as H.
    edestruct H as (_ & err & Hw & Hmsg).
    + vm_compute. reflexivity.
    + reflexivity.
    + vm_compute. reflexivity.
    + right. right. left. reflexivity.
    + simpl. discriminate.
    + exists err. rewrite Hw. split; [reflexivity | exact Hmsg].
Defined.

(** ** Lookup by name *)

(** C5. Once the list request has been answered and its body decoded:
    with no items array, or an empty one, [GetJobByName] returns no job
    and no error; with a non-empty array it returns the first item and no
    error. *)
Theorem GetJobByName_first_or_nil
    (E : Env) (name : string) (st st' : Store) (resp : http.Response)
    (jobsResp : JobsResponse) :
  doRequest E http.MethodGet (jobsByNamePath E name) None st
  = ((Some resp, None), st') ->
  handleResponse (Some resp) (Some (unmarshalJobsResponse E)) zeroJobsResponse
  = (jobsResp, None) ->
  (Items jobsResp = None \/ Items jobsResp = Some [] ->
   GetJobByName E name st = ((None, None), st'))
  /\ (forall (job : Job) (rest : list Job),
        Items jobsResp = Some (job :: rest) ->
        GetJobByName E name st = ((Some job, None), st')).
Proof.
  intros Hreq Hresp. split.
  - intros Hitems. unfold GetJobByName, bind. rewrite Hreq, Hresp.
    destruct Hitems as [-> | ->]; reflexivity.
  - intros job rest Hitems. unfold GetJobByName, bind.
    rewrite Hreq, Hresp, Hitems. reflexivity.
Qed.

Lemma GetJobByName_first_or_nil_witness :
  fst (GetJobByName (Test.env (Test.always 200 "null")) "my_pipeline"
         (Test.store Test.cachedClient)) = (None, None)
  /\ fst (GetJobByName (Test.env (Test.always 200 "empty")) "my_pipeline"
            (Test.store Test.cachedClient)) = (None, None)
  /\ fst (GetJobByName (Test.env (Test.always 200 "my_pipeline")) "my_pipeline"
            (Test.store Test.cachedClient))
     = (Some (mkJob "test-id-123" 1 "my_pipeline" "RUNNING" "RUNNING"), None).
Proof.
  split; [| split].
  - rewrite (proj1 (GetJobByName_first_or_nil
                      (Test.env (Test.always 200 "null")) "my_pipeline"
                      (Test.store Test.cachedClient) _
                      (http.mkResponse 200 (mkBody "null" None))
                      (mkJobsResponse None) eq_refl eq_refl)).
    + reflexivity.
    + left. reflexivity.
  - rewrite (proj1 (GetJobByName_first_or_nil
                      (Test.env (Test.always 200 "empty")) "my_pipeline"
                      (Test.store Test.cachedClient) _
                      (http.mkResponse 200 (mkBody "empty" None))
                      (mkJobsResponse (Some [])) eq_refl eq_refl)).
    + reflexivity.
    + right. reflexivity.
  - rewrite (proj2 (GetJobByName_first_or_nil
                      (Test.env (Test.always 200 "my_pipeline")) "my_pipeline"
                      (Test.store Test.cachedClient) _
                      (http.mkResponse 200 (mkBody "my_pipeline" None))
                      _ eq_refl eq_refl) _ _ eq_refl).
    reflexivity.
Defined.

(** ** The request executor *)

Section Executor.

Variable E : Env.

Lemma attempts_same_sent (st st' : Store) :
  sent st' = sent st -> attempts st' = attempts st.
Proof.
  unfold attempts. now intros ->.
Qed.

Lemma attempts_record_request (req : http.Request) (st : Store) :
  attempts (record_request req st)
  = ((if isAuthenticated req then 1 else 0) + attempts st)%nat.
Proof.
  unfold attempts. simpl. now destruct (isAuthenticated req).
Qed.

(** [getToken] sends no authenticated request. *)
Lemma getToken_attempts (st : Store) :
  attempts (snd (getToken E st)) = attempts st.
Proof.
  destruct (cachedTokenValid E st) as [v1 st1] eqn:H1.
  pose proof (proj2 (cachedTokenValid_client E st)) as Hs1.
  rewrite H1 in Hs1. simpl in Hs1.
  destruct v1.
  - unfold getToken, bind at 1. rewrite H1. simpl.
    now apply attempts_same_sent.
  - destruct (cachedTokenValid E st1) as [v2 st2] eqn:H2.
    pose proof (proj2 (cachedTokenValid_client E st1)) as Hs2.
    rewrite H2 in Hs2. simpl in Hs2.
    assert (Ha2 : attempts st2 = attempts st)
      by (apply attempts_same_sent; congruence).
    destruct v2.
    + unfold getToken, bind at 1. rewrite H1.
      unfold bind at 1. rewrite H2. simpl. exact Ha2.
    + rewrite (getToken_stale E st st1 st2 H1 H2).
      pose proof (proj2 (FetchToken_client E st2)) as Ha3.
      destruct (FetchToken E st2) as [[[token expiresIn] [e |]] st3];
        simpl in Ha3 |- *.
      * congruence.
      * change (attempts st3 = attempts st). congruence.
Qed.

(** While the cache serves, [getToken] reads the clock once and returns
    the cached token. *)
Lemma getToken_served (st : Store) (n : nat) :
  tokenServes E st (S n) ->
  getToken E st = ((accessToken (client st), None), tick st).
Proof.
  intros [Hne Hserves].
  unfold getToken, bind at 1.
  rewrite cachedTokenValid_nonempty by assumption.
  specialize (Hserves 0%nat (Nat.lt_0_succ n)).
  rewrite Nat.add_0_r in Hserves. now rewrite Hserves.
Qed.

(** One turn of the retry loop in which a token was obtained, the request
    was built and the transport delivered a response. *)
Lemma doRequest_loop_turn
    (fuel : nat) (attempt : Z) (lastErr : option error)
    (method path : string) (jsonBody : option string)
    (st0 st1 : Store) (token : string) (resp : http.Response) :
  attempt <= maxRetries ->
  getToken E st0 = ((token, None), st1) ->
  newRequestError E method (requestURL (client st1) path) = None ->
  roundTrip E (List.length (sent st1))
    (authenticatedRequest method (requestURL (client st1) path) token jsonBody)
  = inl resp ->
  doRequest_loop E (S fuel) attempt lastErr method path jsonBody st0
  = if (http.StatusCode resp >=? 500) && (attempt <? maxRetries) then
      doRequest_loop E fuel (attempt + 1)
        (Some (apiError (mkAPIError (http.StatusCode resp)
                           (bytes (http.Body resp)))))
        method path jsonBody
        (record_sleep (calculateBackoff attempt)
           (record_request
              (authenticatedRequest method (requestURL (client st1) path)
                 token jsonBody) st1))
    else
      ((Some resp, None),
       record_request
         (authenticatedRequest method (requestURL (client st1) path)
            token jsonBody) st1).
Proof.
  intros Hatt Hget Hnew Hrt.
  cbn [doRequest_loop].
  replace (attempt <=? maxRetries) with true
    by (symmetry; apply Z.leb_le; exact Hatt).
  cbn [negb]. unfold bind at 1. rewrite Hget.
  unfold bind at 1. unfold getClient at 1. rewrite Hnew.
  unfold bind at 1. unfold Do at 1. rewrite Hrt.
  destruct ((http.StatusCode resp >=? 500) && (attempt <? maxRetries));
    reflexivity.
Qed.

(** Each turn sends at most one authenticated request. *)
Lemma doRequest_loop_attempts (method path : string) (jsonBody : option string) :
  forall (fuel : nat) (attempt : Z) (lastErr : option error) (st : Store),
    (attempts (snd (doRequest_loop E fuel attempt lastErr method path jsonBody st))
     <= attempts st + fuel)%nat.
Proof.
  induction fuel as [| fuel IH]; intros attempt lastErr st.
  - simpl. lia.
  - cbn [doRequest_loop].
    destruct (negb (attempt <=? maxRetries)); [simpl; lia |].
    unfold bind at 1.
    pose proof (getToken_attempts st) as Htok.
    destruct (getToken E st) as [[token [e |]] st1]; simpl in Htok.
    + simpl. lia.
    + unfold bind at 1. unfold getClient at 1.
      destruct (newRequestError E method _); [simpl; lia |].
      unfold bind at 1. unfold Do at 1.
      set (req := authenticatedRequest method _ token jsonBody).
      pose proof (attempts_record_request req st1) as Hreq.
      change (isAuthenticated req) with true in Hreq.
      change ((if true then 1 else 0) + attempts st1)%nat
        with (S (attempts st1)) in Hreq.
      destruct (roundTrip E _ req) as [resp | err].
      * destruct ((http.StatusCode resp >=? 500) && (attempt <? maxRetries)).
        -- cbn [ReadAll]. unfold bind at 1. unfold Sleep at 1.
           specialize (IH (attempt + 1)
                         (Some (apiError (mkAPIError (http.StatusCode resp)
                                            (bytes (http.Body resp)))))
                         (record_sleep (calculateBackoff attempt)
                            (record_request req st1))).
           change (attempts (record_sleep (calculateBackoff attempt)
                               (record_request req st1)))
             with (attempts (record_request req st1)) in IH.
           lia.
        -- simpl snd. lia.
      * destruct (attempt <? maxRetries).
        -- unfold bind at 1. unfold Sleep at 1.
           specialize (IH (attempt + 1) (Some err)
                         (record_sleep (calculateBackoff attempt)
                            (record_request req st1))).
           change (attempts (record_sleep (calculateBackoff attempt)
                               (record_request req st1)))
             with (attempts (record_request req st1)) in IH.
           lia.
        -- simpl snd. lia.
Qed.

Lemma tokenServes_next (st st' : Store) (n : nat) :
  tokenServes E st (S n) ->
  client st' = client st ->
  nowCalls st' = S (nowCalls st) ->
  tokenServes E st' n.
Proof.
  intros [Hne Hserves] Hc Hn. split; rewrite Hc; [exact Hne |].
  intros i Hi. rewrite Hn.
  specialize (Hserves (S i) ltac:(lia)).
  now rewrite Nat.add_succ_r in Hserves.
Qed.

(** The retry loop against a scripted transport: [k] responses with a
    status of 500 or more, then [resp]. *)
Lemma doRequest_loop_scripted
    (method path : string) (jsonBody : option string) (resp : http.Response) :
  forall (k fuel : nat) (attempt : Z) (lastErr : option error) (st : Store),
    (k < fuel)%nat ->
    attempt + Z.of_nat k <= maxRetries ->
    tokenServes E st (S k) ->
    newRequestError E method (requestURL (client st) path) = None ->
    (forall i : nat, (i < k)%nat ->
       exists r : http.Response,
         roundTrip E (List.length (sent st) + i)
           (authenticatedRequest method (requestURL (client st) path)
              (accessToken (client st)) jsonBody) = inl r
         /\ 500 <= http.StatusCode r) ->
    roundTrip E (List.length (sent st) + k)
      (authenticatedRequest method (requestURL (client st) path)
         (accessToken (client st)) jsonBody) = inl resp ->
    http.StatusCode resp < 500 \/ attempt + Z.of_nat k = maxRetries ->
    exists st' : Store,
      doRequest_loop E fuel attempt lastErr method path jsonBody st
      = ((Some resp, None), st')
      /\ attempts st' = (attempts st + k + 1)%nat.
Proof.
  induction k as [| k IH];
    intros fuel attempt lastErr st Hfuel Hatt Hserves Hnew Hscript Hlast Hstop.
  - destruct fuel as [| fuel]; [lia |].
    rewrite Nat.add_0_r in Hlast.
    rewrite (doRequest_loop_turn fuel attempt lastErr method path jsonBody
               st (tick st) (accessToken (client st)) resp
               ltac:(lia) (getToken_served st 0 Hserves) Hnew Hlast).
    replace ((http.StatusCode resp >=? 500) && (attempt <? maxRetries))
      with false.
    + eexists. split; [reflexivity |].
      rewrite attempts_record_request. cbn [isAuthenticated authenticatedRequest
        http.Authorization].
      change (attempts (tick st)) with (attempts st). lia.
    + symmetry. apply andb_false_iff.
      destruct Hstop as [Hlt | Heq].
      * left. rewrite Z.geb_leb. apply Z.leb_gt. lia.
      * right. apply Z.ltb_ge. lia.
  - destruct fuel as [| fuel]; [lia |].
    destruct (Hscript 0%nat ltac:(lia)) as (r & Hr & Hr500).
    rewrite Nat.add_0_r in Hr.
    rewrite (doRequest_loop_turn fuel attempt lastErr method path jsonBody
               st (tick st) (accessToken (client st)) r
               ltac:(lia) (getToken_served st (S k) Hserves) Hnew Hr).
    replace ((http.StatusCode r >=? 500) && (attempt <? maxRetries))
      with true.
    + set (st2 := record_sleep _ _).
      destruct (IH fuel (attempt + 1)
                  (Some (apiError (mkAPIError (http.StatusCode r)
                                     (bytes (http.Body r)))))
                  st2) as (st' & Hloop & Hcount).
      * lia.
      * lia.
      * apply (tokenServes_next st); [exact Hserves | reflexivity | reflexivity].
      * exact Hnew.
      * intros i Hi. destruct (Hscript (S i) ltac:(lia)) as (r' & Hr' & Hr'500).
        exists r'. split; [| exact Hr'500].
        cbn [st2 record_sleep record_request sent client tick List.length].
        rewrite <- Hr'. f_equal. lia.
      * cbn [st2 record_sleep record_request sent client tick List.length].
        rewrite <- Hlast. f_equal. lia.
      * lia.
      * exists st'. split; [exact Hloop |].
        rewrite Hcount. unfold st2.
        change (attempts (record_sleep (calculateBackoff attempt)
                  (record_request
                     (authenticatedRequest method
                        (requestURL (client (tick st)) path)
                        (accessToken (client st)) jsonBody) (tick st))))
          with (S (attempts st)).
        lia.
    + symmetry. apply andb_true_iff. split.
      * apply Z.geb_le. lia.
      * apply Z.ltb_lt. lia.
Qed.

End Executor.

(** C1. [doRequest] sends at most maxRetries + 1 = 4 authenticated
    requests. In a turn of its loop in which a response arrives: a status
    below 500 is returned as it is, with no error and without another
    turn; a status of 500 or more with attempts left puts the loop to
    sleep for the backoff and into the next turn; a status of 500 or more
    in the last turn is returned as the response, with no error. So, while
    the cached token serves, [k] responses of 500 or more followed by a
    response below 500 (or by any response when [k] = 3) end in that
    response after exactly [k] + 1 attempts: one attempt for a first 400,
    three for 503, 503, 200, four for a server that always answers 500. *)
Theorem doRequest_retry_policy (E : Env) (method path : string) :
  (forall (body : option (Payload E)) (st : Store),
     (attempts (snd (doRequest E method path body st)) <= attempts st + 4)%nat)
  /\
  (forall (fuel : nat) (attempt : Z) (lastErr : option error)
          (jsonBody : option string) (st0 st1 : Store) (token : string)
          (resp : http.Response),
     attempt <= maxRetries ->
     getToken E st0 = ((token, None), st1) ->
     newRequestError E method (requestURL (client st1) path) = None ->
     roundTrip E (List.length (sent st1))
       (authenticatedRequest method (requestURL (client st1) path) token jsonBody)
     = inl resp ->
     (http.StatusCode resp < 500 ->
      doRequest_loop E (S fuel) attempt lastErr method path jsonBody st0
      = ((Some resp, None),
         record_request
           (authenticatedRequest method (requestURL (client st1) path)
              token jsonBody) st1))
     /\ (500 <= http.StatusCode resp -> attempt < maxRetries ->
         doRequest_loop E (S fuel) attempt lastErr method path jsonBody st0
         = doRequest_loop E fuel (attempt + 1)
             (Some (apiError (mkAPIError (http.StatusCode resp)
                                (bytes (http.Body resp)))))
             method path jsonBody
             (record_sleep (calculateBackoff attempt)
                (record_request
                   (authenticatedRequest method (requestURL (client st1) path)
                      token jsonBody) st1)))
     /\ (500 <= http.StatusCode resp -> attempt = maxRetries ->
         doRequest_loop E (S fuel) attempt lastErr method path jsonBody st0
         = ((Some resp, None),
            record_request
              (authenticatedRequest method (requestURL (client st1) path)
                 token jsonBody) st1)))
  /\
  (forall (body : option (Payload E)) (jsonBody : option string) (st : Store)
          (k : nat) (resp : http.Response),
     marshalRequestBody E body = inl jsonBody ->
     (k <= 3)%nat ->
     tokenServes E st (S k) ->
     newRequestError E method (requestURL (client st) path) = None ->
     (forall i : nat, (i < k)%nat ->
        exists r : http.Response,
          roundTrip E (List.length (sent st) + i)
            (authenticatedRequest method (requestURL (client st) path)
               (accessToken (client st)) jsonBody) = inl r
          /\ 500 <= http.StatusCode r) ->
     roundTrip E (List.length (sent st) + k)
       (authenticatedRequest method (requestURL (client st) path)
          (accessToken (client st)) jsonBody) = inl resp ->
     http.StatusCode resp < 500 \/ k = 3%nat ->
     fst (doRequest E method path body st) = (Some resp, None)
     /\ attempts (snd (doRequest E method path body st))
        = (attempts st + k + 1)%nat).
Proof.
  split; [| split].
  - intros body st. unfold doRequest.
    destruct (marshalRequestBody E body) as [jsonBody | err].
    + apply (doRequest_loop_attempts E method path jsonBody 4).
    + simpl. lia.
  - intros fuel attempt lastErr jsonBody st0 st1 token resp Hatt Hget Hnew Hrt.
    rewrite (doRequest_loop_turn E fuel attempt lastErr method path jsonBody
               st0 st1 token resp Hatt Hget Hnew Hrt).
    split; [| split].
    + intros Hlt.
      replace (http.StatusCode resp >=? 500) with false; [reflexivity |].
      symmetry. rewrite Z.geb_leb. apply Z.leb_gt. lia.
    + intros Hge Hleft.
      replace (http.StatusCode resp >=? 500) with true
        by (symmetry; apply Z.geb_le; lia).
      replace (attempt <? maxRetries) with true
        by (symmetry; apply Z.ltb_lt; lia).
      reflexivity.
    + intros Hge Hlast.
      replace (attempt <? maxRetries) with false
        by (symmetry; apply Z.ltb_ge; lia).
      now rewrite andb_false_r.
  - intros body jsonBody st k resp Hm Hk Hserves Hnew Hscript Hlast Hstop.
    unfold doRequest. rewrite Hm.
    destruct (doRequest_loop_scripted E method path jsonBody resp k
                (Z.to_nat (maxRetries + 1)) 0 None st)
      as (st' & Hloop & Hcount); try assumption.
    + change (Z.to_nat (maxRetries + 1)) with 4%nat. lia.
    + unfold maxRetries. lia.
    + unfold maxRetries. lia.
    + rewrite Hloop. split; [reflexivity | exact Hcount].
Qed.

Lemma test_token_serves
    (server : nat -> http.Request -> http.Response + error) (n : nat) :
  (n <= 1000)%nat ->
  tokenServes (Test.env server) (Test.store Test.cachedClient) n.
Proof.
  intros Hn. split.
  - simpl. discriminate.
  - intros i Hi. apply Z.ltb_lt. simpl.
    unfold time.Add, tokenRefreshBuffer, time.Millisecond, time.Second. lia.
Defined.

Lemma doRequest_retry_policy_witness :
  (fst (doRequest (Test.env Test.unavailableTwice) "GET" "/test" None
          (Test.store Test.cachedClient))
   = (Some (http.mkResponse 200 (mkBody "ok" None)), None)
   /\ attempts (snd (doRequest (Test.env Test.unavailableTwice) "GET" "/test" None
                       (Test.store Test.cachedClient))) = 3%nat)
  /\ (fst (doRequest (Test.env (Test.always 400 "bad request")) "GET" "/test" None
             (Test.store Test.cachedClient))
      = (Some (http.mkResponse 400 (mkBody "bad request" None)), None)
      /\ attempts (snd (doRequest (Test.env (Test.always 400 "bad request"))
                          "GET" "/test" None (Test.store Test.cachedClient)))
         = 1%nat)
  /\ (fst (doRequest (Test.env (Test.always 500 "internal server error"))
             "GET" "/test" None (Test.store Test.cachedClient))
      = (Some (http.mkResponse 500 (mkBody "internal server error" None)), None)
      /\ attempts (snd (doRequest (Test.env (Test.always 500 "internal server error"))
                          "GET" "/test" None (Test.store Test.cachedClient)))
         = 4%nat)
  /\ doRequest_loop (Test.env (Test.always 503 "unavailable")) 2 2 None
       "GET" "/test" None (Test.store Test.cachedClient)
     = doRequest_loop (Test.env (Test.always 503 "unavailable")) 1 3
         (Some (apiError (mkAPIError 503 "unavailable")))
         "GET" "/test" None
         (record_sleep (400 * time.Millisecond)
            (record_request
               (authenticatedRequest "GET" "http://127.0.0.1:8080/test"
                  "test-token" None)
               (tick (Test.store Test.cachedClient)))).
Proof.
  split; [| split; [| split]].
  - apply (proj2 (proj2 (doRequest_retry_policy
                           (Test.env Test.unavailableTwice) "GET" "/test"))
             None None (Test.store Test.cachedClient) 2%nat
             (http.mkResponse 200 (mkBody "ok" None))).
    + reflexivity.
    + lia.
    + apply test_token_serves. lia.
    + reflexivity.
    + intros i Hi. exists (http.mkResponse 503 (mkBody "service unavailable" None)).
      split; [| simpl; lia].
      destruct i as [| [| i]]; [reflexivity | reflexivity | lia].
    + reflexivity.
    + left. simpl. lia.
  - apply (proj2 (proj2 (doRequest_retry_policy
                           (Test.env (Test.always 400 "bad request"))
                           "GET" "/test"))
             None None (Test.store Test.cachedClient) 0%nat
             (http.mkResponse 400 (mkBody "bad request" None))).
    + reflexivity.
    + lia.
    + apply test_token_serves. lia.
    + reflexivity.
    + intros i Hi. lia.
    + reflexivity.
    + left. simpl. lia.
  - apply (proj2 (proj2 (doRequest_retry_policy
                           (Test.env (Test.always 500 "internal server error"))
                           "GET" "/test"))
             None None (Test.store Test.cachedClient) 3%nat
             (http.mkResponse 500 (mkBody "internal server error" None))).
    + reflexivity.
    + lia.
    + apply test_token_serves. lia.
    + reflexivity.
    + intros i Hi.
      exists (http.mkResponse 500 (mkBody "internal server error" None)).
      split; [reflexivity | simpl; lia].
    + reflexivity.
    + right. reflexivity.
  - apply (proj1 (proj2 (doRequest_retry_policy
                           (Test.env (Test.always 503 "unavailable"))
                           "GET" "/test"))
             1%nat 2 None None (Test.store Test.cachedClient)
             (tick (Test.store Test.cachedClient)) "test-token"
             (http.mkResponse 503 (mkBody "unavailable" None))).
    + unfold maxRetries. lia.
    + reflexivity.
    + reflexivity.
    + reflexivity.
    + simpl. lia.
    + unfold maxRetries. lia.
Defined.

(** * Further properties *)

(** ** What obtaining a token does to the store *)

Lemma tokenTraffic_refl (st : Store) : tokenTraffic st st.
Proof.
  repeat split; try reflexivity; try lia.
  exists []. split; [reflexivity | constructor].
Qed.

Lemma tokenTraffic_trans (st1 st2 st3 : Store) :
  tokenTraffic st1 st2 -> tokenTraffic st2 st3 -> tokenTraffic st1 st3.
Proof.
  intros (Hh & Hs & Hsel & Hn & new & Hsent & Hnew)
         (Hh' & Hs' & Hsel' & Hn' & new' & Hsent' & Hnew').
  repeat split; try congruence; try lia.
  exists (new' ++ new)%list. split.
  - rewrite Hsent', Hsent. now rewrite app_assoc.
  - apply Forall_app. now split.
Qed.

Lemma tokenTraffic_tick (st : Store) : tokenTraffic st (tick st).
Proof.
  repeat split; try reflexivity; simpl; try lia.
  exists []. split; [reflexivity | constructor].
Qed.

Lemma tokenTraffic_cachedTokenValid (E : Env) (st : Store) :
  tokenTraffic st (snd (cachedTokenValid E st)).
Proof.
  unfold cachedTokenValid, bind, getClient, ret, Now.
  destruct (String.eqb (accessToken (client st)) ""); simpl.
  - apply tokenTraffic_refl.
  - apply tokenTraffic_tick.
Qed.

Lemma tokenTraffic_token_request (st : Store) (body : string) :
  tokenTraffic st (record_request (tokenRequest (client st) body) st).
Proof.
  repeat split; try reflexivity; simpl; try lia.
  exists [tokenRequest (client st) body]. split; [reflexivity |].
  constructor; [reflexivity | constructor].
Qed.

Lemma tokenTraffic_FetchToken (E : Env) (st : Store) :
  tokenTraffic st (snd (FetchToken E st)).
Proof.
  unfold FetchToken, bind, getClient, ret, Do.
  destruct (marshalTokenRequest E _) as [body | err];
    [| apply tokenTraffic_refl].
  destruct (newRequestError E _ _); [apply tokenTraffic_refl |].
  destruct (roundTrip E _ _) as [resp | err];
    [| apply tokenTraffic_token_request].
  destruct (negb _); [apply tokenTraffic_token_request |].
  destruct (decodeTokenResponse E _); apply tokenTraffic_token_request.
Qed.

Lemma tokenTraffic_getToken (E : Env) (st : Store) :
  tokenTraffic st (snd (getToken E st)).
Proof.
  destruct (cachedTokenValid E st) as [v1 st1] eqn:H1.
  pose proof (tokenTraffic_cachedTokenValid E st) as T1.
  rewrite H1 in T1. simpl in T1.
  destruct v1.
  - unfold getToken, bind at 1. rewrite H1. exact T1.
  - destruct (cachedTokenValid E st1) as [v2 st2] eqn:H2.
    pose proof (tokenTraffic_cachedTokenValid E st1) as T2.
    rewrite H2 in T2. simpl in T2.
    pose proof (tokenTraffic_trans _ _ _ T1 T2) as T12.
    destruct v2.
    + unfold getToken, bind at 1. rewrite H1.
      unfold bind at 1. rewrite H2. exact T12.
    + rewrite (getToken_stale E st st1 st2 H1 H2).
      pose proof (tokenTraffic_FetchToken E st2) as T3.
      destruct (FetchToken E st2) as [[[token expiresIn] [e |]] st3];
        simpl in T3 |- *.
      * now apply (tokenTraffic_trans _ _ _ T12).
      * apply (tokenTraffic_trans _ _ _ T12).
        apply (tokenTraffic_trans _ _ _ T3).
        repeat split; try reflexivity; simpl; try lia.
        exists []. split; [reflexivity | constructor].
Qed.

(** ** An induction principle for the retry loop *)

Section RetryLoop.

Variable E : Env.
Variables (method path : string) (jsonBody : option string).

Variable Q :
  Z -> Store -> (option http.Response * option error) * Store -> Prop.

Hypothesis exhausted : forall (a : Z) (lastErr : option error) (st : Store),
  Q a st ((None, Some (requestFailed lastErr)), st).

Hypothesis token_failed :
  forall (a : Z) (st st1 : Store) (token : string) (e : error),
    getToken E st = ((token, Some e), st1) ->
    Q a st ((None, Some e), st1).

Hypothesis request_not_built :
  forall (a : Z) (st st1 : Store) (token : string) (e : error),
    getToken E st = ((token, None), st1) ->
    newRequestError E method (requestURL (client st1) path) = Some e ->
    Q a st ((None, Some (ErrorfW "failed to create request: %w" [] (Some e))), st1).

Hypothesis transport_failed_last :
  forall (a : Z) (st st1 : Store) (token : string) (e : error),
    getToken E st = ((token, None), st1) ->
    roundTrip E (List.length (sent st1)) (attemptRequest method path jsonBody token st1) = inr e ->
    maxRetries <= a ->
    Q a st ((None, Some (requestFailed (Some e))),
            record_request (attemptRequest method path jsonBody token st1) st1).

Hypothesis response_returned :
  forall (a : Z) (st st1 : Store) (token : string) (resp : http.Response),
    getToken E st = ((token, None), st1) ->
    roundTrip E (List.length (sent st1)) (attemptRequest method path jsonBody token st1) = inl resp ->
    http.StatusCode resp < 500 \/ maxRetries <= a ->
    Q a st ((Some resp, None), record_request (attemptRequest method path jsonBody token st1) st1).

Hypothesis retried :
  forall (a : Z) (st st1 : Store) (token : string)
         (r : (option http.Response * option error) * Store),
    getToken E st = ((token, None), st1) ->
    a < maxRetries ->
    Q (a + 1)
      (record_sleep (calculateBackoff a)
         (record_request (attemptRequest method path jsonBody token st1) st1)) r ->
    Q a st r.

Lemma doRequest_loop_cases :
  forall (fuel : nat) (a : Z) (lastErr : option error) (st : Store),
    Q a st (doRequest_loop E fuel a lastErr method path jsonBody st).
Proof.
  induction fuel as [| fuel IH]; intros a lastErr st.
  - apply exhausted.
  - cbn [doRequest_loop].
    destruct (negb (a <=? maxRetries)); [apply exhausted |].
    unfold bind at 1.
    destruct (getToken E st) as [[token [e |]] st1] eqn:Hget.
    + now apply (token_failed a st st1 token).
    + unfold bind at 1. unfold getClient at 1.
      destruct (newRequestError E method (requestURL (client st1) path))
        as [e |] eqn:Hnew.
      * now apply (request_not_built a st st1 token).
      * unfold bind at 1. unfold Do at 1.
        fold (attemptRequest method path jsonBody token st1).
        destruct (roundTrip E (List.length (sent st1)) (attemptRequest method path jsonBody token st1))
          as [resp | err] eqn:Hrt.
        -- destruct (Z.geb_spec (http.StatusCode resp) 500) as [Hge | Hlt];
             destruct (Z.ltb_spec a maxRetries) as [Hleft | Hlast];
             cbn [andb].
           ++ cbn [ReadAll]. unfold bind at 1. unfold Sleep at 1.
              apply (retried a st st1 token); [exact Hget | exact Hleft |].
              apply IH.
           ++ apply (response_returned a st st1 token);
                [exact Hget | exact Hrt | now right].
           ++ apply (response_returned a st st1 token);
                [exact Hget | exact Hrt | left; lia].
           ++ apply (response_returned a st st1 token);
                [exact Hget | exact Hrt | left; lia].
        -- destruct (Z.ltb_spec a maxRetries) as [Hleft | Hlast].
           ++ unfold bind at 1. unfold Sleep at 1.
              apply (retried a st st1 token); [exact Hget | exact Hleft |].
              apply IH.
           ++ now apply (transport_failed_last a st st1 token).
Qed.

End RetryLoop.

(** ** The executor: results, requests and sleeps *)

Lemma requestURL_append (c : Client) (path : string) :
  requestURL c path = host c ++ path.
Proof.
  unfold requestURL. cbn. now rewrite append_empty_r.
Qed.

Lemma attemptRequest_shape (method path : string) (jsonBody : option string)
    (token : string) (st1 : Store) :
  attemptOf method (host (client st1) ++ path) jsonBody
    (attemptRequest method path jsonBody token st1).
Proof.
  unfold attemptOf, attemptRequest, authenticatedRequest.
  rewrite requestURL_append.
  cbn [http.Method http.URL http.ReqBody http.ContentType http.Accept
       http.Authorization].
  repeat split. exists token. cbn. now rewrite append_empty_r.
Qed.

(** A response or an error, never both and never neither. *)
Theorem doRequest_result_exclusive
    (E : Env) (method path : string) (body : option (Payload E)) (st : Store) :
  (exists resp : http.Response,
     fst (doRequest E method path body st) = (Some resp, None))
  \/ (exists err : error,
        fst (doRequest E method path body st) = (None, Some err)).
Proof.
  unfold doRequest.
  destruct (marshalRequestBody E body) as [jsonBody | err].
  - apply (doRequest_loop_cases E method path jsonBody
             (fun _ _ r =>
                (exists resp, fst r = (Some resp, None))
                \/ (exists err, fst r = (None, Some err)))); intros;
      try (right; eexists; reflexivity);
      try (left; eexists; reflexivity).
    assumption.
  - right. eexists. reflexivity.
Qed.

(** Every request [doRequest] hands to the transport is appended to those
    sent before; each authenticated one among them has the method asked
    for, the URL host ++ path, the JSON headers, a bearer token, and the
    bytes of the one marshalling done before the loop. *)
Theorem doRequest_replays_one_request
    (E : Env) (method path : string) (body : option (Payload E)) (st : Store) :
  exists new : list http.Request,
    sent (snd (doRequest E method path body st)) = (new ++ sent st)%list
    /\ Forall
         (fun req =>
            isAuthenticated req = true ->
            exists jsonBody : option string,
              marshalRequestBody E body = inl jsonBody
              /\ attemptOf method (host (client st) ++ path) jsonBody req)
         new.
Proof.
  unfold doRequest.
  destruct (marshalRequestBody E body) as [jsonBody | err].
  - apply (doRequest_loop_cases E method path jsonBody
             (fun _ st0 r =>
                exists new : list http.Request,
                  sent (snd r) = (new ++ sent st0)%list
                  /\ Forall
                       (fun req =>
                          isAuthenticated req = true ->
                          exists jb : option string,
                            inl jsonBody = inl jb
                            /\ attemptOf method (host (client st0) ++ path) jb req)
                       new)).
    + intros a lastErr st0. exists []. split; [reflexivity | constructor].
    + intros a st0 st1 token e Hget.
      pose proof (tokenTraffic_getToken E st0) as T. rewrite Hget in T.
      destruct T as (_ & _ & _ & _ & new & Hsent & Hnew).
      exists new. split; [exact Hsent |].
      eapply Forall_impl; [| exact Hnew].
      simpl. intros req Hfalse Htrue. congruence.
    + intros a st0 st1 token e Hget _.
      pose proof (tokenTraffic_getToken E st0) as T. rewrite Hget in T.
      destruct T as (_ & _ & _ & _ & new & Hsent & Hnew).
      exists new. split; [exact Hsent |].
      eapply Forall_impl; [| exact Hnew].
      simpl. intros req Hfalse Htrue. congruence.
    + intros a st0 st1 token e Hget _ _.
      pose proof (tokenTraffic_getToken E st0) as T. rewrite Hget in T.
      destruct T as (Hhost & _ & _ & _ & new & Hsent & Hnew).
      simpl in Hhost, Hsent.
      exists (attemptRequest method path jsonBody token st1 :: new).
      split; [simpl; now rewrite Hsent |].
      constructor.
      * intros _. exists jsonBody. split; [reflexivity |].
        rewrite <- Hhost. apply attemptRequest_shape.
      * eapply Forall_impl; [| exact Hnew].
        simpl. intros req Hfalse Htrue. congruence.
    + intros a st0 st1 token resp Hget _ _.
      pose proof (tokenTraffic_getToken E st0) as T. rewrite Hget in T.
      destruct T as (Hhost & _ & _ & _ & new & Hsent & Hnew).
      simpl in Hhost, Hsent.
      exists (attemptRequest method path jsonBody token st1 :: new).
      split; [simpl; now rewrite Hsent |].
      constructor.
      * intros _. exists jsonBody. split; [reflexivity |].
        rewrite <- Hhost. apply attemptRequest_shape.
      * eapply Forall_impl; [| exact Hnew].
        simpl. intros req Hfalse Htrue. congruence.
    + intros a st0 st1 token r Hget _ (new' & Hsent' & Hnew').
      pose proof (tokenTraffic_getToken E st0) as T. rewrite Hget in T.
      destruct T as (Hhost & _ & _ & _ & new & Hsent & Hnew).
      simpl in Hhost, Hsent, Hsent', Hnew'.
      exists (new' ++ attemptRequest method path jsonBody token st1 :: new)%list.
      split.
      * rewrite Hsent', Hsent. now rewrite <- app_assoc.
      * apply Forall_app. split.
        -- eapply Forall_impl; [| exact Hnew'].
           simpl. intros req Hreq Htrue. rewrite <- Hhost. now apply Hreq.
        -- constructor.
           ++ intros _. exists jsonBody. split; [reflexivity |].
              rewrite <- Hhost. apply attemptRequest_shape.
           ++ eapply Forall_impl; [| exact Hnew].
              simpl. intros req Hfalse Htrue. congruence.
  - exists []. split; [reflexivity | constructor].
Qed.

Lemma doRequest_loop_sleeps (E : Env) (method path : string)
    (jsonBody : option string) :
  forall (fuel : nat) (a : Z) (lastErr : option error) (st : Store),
    exists n : nat,
      a + Z.of_nat n <= Z.max a maxRetries
      /\ slept (snd (doRequest_loop E fuel a lastErr method path jsonBody st))
         = (backoffs a n ++ slept st)%list.
Proof.
  apply (doRequest_loop_cases E method path jsonBody
           (fun a st0 r =>
              exists n : nat,
                a + Z.of_nat n <= Z.max a maxRetries
                /\ slept (snd r) = (backoffs a n ++ slept st0)%list)).
  - intros a lastErr st0. exists 0%nat. split; [lia | reflexivity].
  - intros a st0 st1 token e Hget.
    pose proof (tokenTraffic_getToken E st0) as T. rewrite Hget in T.
    destruct T as (_ & Hs & _). exists 0%nat. split; [lia | exact Hs].
  - intros a st0 st1 token e Hget _.
    pose proof (tokenTraffic_getToken E st0) as T. rewrite Hget in T.
    destruct T as (_ & Hs & _). exists 0%nat. split; [lia | exact Hs].
  - intros a st0 st1 token e Hget _ _.
    pose proof (tokenTraffic_getToken E st0) as T. rewrite Hget in T.
    destruct T as (_ & Hs & _). exists 0%nat. split; [lia | exact Hs].
  - intros a st0 st1 token resp Hget _ _.
    pose proof (tokenTraffic_getToken E st0) as T. rewrite Hget in T.
    destruct T as (_ & Hs & _). exists 0%nat. split; [lia | exact Hs].
  - intros a st0 st1 token r Hget Hleft (n & Hn & Hslept).
    pose proof (tokenTraffic_getToken E st0) as T. rewrite Hget in T.
    destruct T as (_ & Hs & _). simpl in Hs, Hslept.
    exists (S n). split; [lia |].
    rewrite Hslept, Hs. cbn [backoffs]. now rewrite <- app_assoc.
Qed.

(** [doRequest] sleeps at most three times, for 100ms, 200ms and 400ms in
    that order: the cap of 5s is never reached, and nothing else in a call
    sleeps. *)
Theorem doRequest_backoff_schedule
    (E : Env) (method path : string) (body : option (Payload E)) (st : Store) :
  let slept' := slept (snd (doRequest E method path body st)) in
  slept' = slept st
  \/ slept' = 100 * time.Millisecond :: slept st
  \/ slept' = 200 * time.Millisecond :: 100 * time.Millisecond :: slept st
  \/ slept' = 400 * time.Millisecond :: 200 * time.Millisecond
              :: 100 * time.Millisecond :: slept st.
Proof.
  cbv zeta. unfold doRequest.
  destruct (marshalRequestBody E body) as [jsonBody | err]; [| now left].
  destruct (doRequest_loop_sleeps E method path jsonBody
              (Z.to_nat (maxRetries + 1)) 0 None st) as (n & Hn & Hslept).
  rewrite Hslept. unfold maxRetries in Hn.
  destruct n as [| [| [| [| n]]]]; [| | | | lia].
  - now left.
  - right. now left.
  - right. right. now left.
  - right. right. now right.
Qed.

(** ** The executor: transport errors *)

Section Retries.

Variable E : Env.
Variables (method path : string) (jsonBody : option string).

(** One turn in which a token was obtained, the request was built and the
    transport failed. *)
Lemma doRequest_loop_turn_error
    (fuel : nat) (attempt : Z) (lastErr : option error)
    (st0 st1 : Store) (token : string) (err : error) :
  attempt <= maxRetries ->
  getToken E st0 = ((token, None), st1) ->
  newRequestError E method (requestURL (client st1) path) = None ->
  roundTrip E (List.length (sent st1))
    (authenticatedRequest method (requestURL (client st1) path) token jsonBody)
  = inr err ->
  doRequest_loop E (S fuel) attempt lastErr method path jsonBody st0
  = if attempt <? maxRetries then
      doRequest_loop E fuel (attempt + 1) (Some err) method path jsonBody
        (record_sleep (calculateBackoff attempt)
           (record_request
              (authenticatedRequest method (requestURL (client st1) path)
                 token jsonBody) st1))
    else
      ((None, Some (requestFailed (Some err))),
       record_request
         (authenticatedRequest method (requestURL (client st1) path)
            token jsonBody) st1).
Proof.
  intros Hatt Hget Hnew Hrt.
  cbn [doRequest_loop].
  replace (attempt <=? maxRetries) with true
    by (symmetry; apply Z.leb_le; exact Hatt).
  cbn [negb]. unfold bind at 1. rewrite Hget.
  unfold bind at 1. unfold getClient at 1. rewrite Hnew.
  unfold bind at 1. unfold Do at 1. rewrite Hrt.
  destruct (attempt <? maxRetries); reflexivity.
Qed.

(** After [k] retryable outcomes the loop stands [k] attempts further, at
    a store that differs by [k] clock readings, [k] requests and [k]
    sleeps. *)
Lemma doRequest_loop_after_retries :
  forall (k fuel : nat) (attempt : Z) (lastErr : option error) (st : Store),
    (k <= fuel)%nat ->
    attempt + Z.of_nat k <= maxRetries ->
    tokenServes E st k ->
    newRequestError E method (requestURL (client st) path) = None ->
    (forall i : nat, (i < k)%nat ->
       retryable
         (roundTrip E (List.length (sent st) + i)
            (authenticatedRequest method (requestURL (client st) path)
               (accessToken (client st)) jsonBody))) ->
    exists (lastErr' : option error) (st' : Store),
      doRequest_loop E fuel attempt lastErr method path jsonBody st
      = doRequest_loop E (fuel - k) (attempt + Z.of_nat k) lastErr'
          method path jsonBody st'
      /\ client st' = client st
      /\ nowCalls st' = (nowCalls st + k)%nat
      /\ List.length (sent st') = (List.length (sent st) + k)%nat
      /\ attempts st' = (attempts st + k)%nat.
Proof.
  induction k as [| k IH];
    intros fuel attempt lastErr st Hfuel Hatt Hserves Hnew Hscript.
  - exists lastErr, st. rewrite Nat.sub_0_r, Z.add_0_r, !Nat.add_0_r.
    repeat split; reflexivity.
  - destruct fuel as [| fuel]; [lia |].
    pose proof (Hscript 0%nat ltac:(lia)) as H0.
    rewrite Nat.add_0_r in H0.
    set (st2 := record_sleep (calculateBackoff attempt)
                  (record_request
                     (authenticatedRequest method (requestURL (client (tick st)) path)
                        (accessToken (client st)) jsonBody) (tick st))).
    assert (Hstep : exists lastErr1,
      doRequest_loop E (S fuel) attempt lastErr method path jsonBody st
      = doRequest_loop E fuel (attempt + 1) lastErr1 method path jsonBody st2).
    { destruct (roundTrip E (List.length (sent st))
                  (authenticatedRequest method (requestURL (client st) path)
                     (accessToken (client st)) jsonBody))
        as [r | err] eqn:Hrt.
      - eexists.
        rewrite (doRequest_loop_turn E fuel attempt lastErr method path jsonBody
                   st (tick st) (accessToken (client st)) r
                   ltac:(lia) (getToken_served E st k Hserves) Hnew Hrt).
        replace ((http.StatusCode r >=? 500) && (attempt <? maxRetries))
          with true; [reflexivity |].
        symmetry. apply andb_true_iff. split.
        + apply Z.geb_le. simpl in H0. lia.
        + apply Z.ltb_lt. lia.
      - eexists.
        rewrite (doRequest_loop_turn_error fuel attempt lastErr
                   st (tick st) (accessToken (client st)) err
                   ltac:(lia) (getToken_served E st k Hserves) Hnew Hrt).
        replace (attempt <? maxRetries) with true; [reflexivity |].
        symmetry. apply Z.ltb_lt. lia. }
    destruct Hstep as (lastErr1 & Hstep).
    destruct (IH fuel (attempt + 1) lastErr1 st2)
      as (lastErr' & st' & Hloop & Hc & Hn & Hl & Ha).
    + lia.
    + lia.
    + apply (tokenServes_next E st); [exact Hserves | reflexivity | reflexivity].
    + exact Hnew.
    + intros i Hi. specialize (Hscript (S i) ltac:(lia)).
      cbn [st2 record_sleep record_request sent client tick List.length].
      replace (S (List.length (sent st)) + i)%nat
        with (List.length (sent st) + S i)%nat by lia.
      exact Hscript.
    + exists lastErr', st'. rewrite Hstep, Hloop.
      replace (attempt + 1 + Z.of_nat k) with (attempt + Z.of_nat (S k)) by lia.
      cbn [Nat.sub]. split; [reflexivity |].
      rewrite Hc, Hn, Hl, Ha. unfold st2.
      change (attempts (record_sleep (calculateBackoff attempt)
                (record_request
                   (authenticatedRequest method
                      (requestURL (client (tick st)) path)
                      (accessToken (client st)) jsonBody) (tick st))))
        with (S (attempts st)).
      cbn [record_sleep record_request sent client tick nowCalls List.length].
      repeat split; lia.
Qed.

End Retries.

(** The outcome of [doRequest] after [k] retryable outcomes. *)
Lemma doRequest_after_retries
    (E : Env) (method path : string) (body : option (Payload E))
    (jsonBody : option string) (st : Store) (k : nat) :
  marshalRequestBody E body = inl jsonBody ->
  (k <= 3)%nat ->
  tokenServes E st (S k) ->
  newRequestError E method (requestURL (client st) path) = None ->
  (forall i : nat, (i < k)%nat ->
     retryable
       (roundTrip E (List.length (sent st) + i)
          (authenticatedRequest method (requestURL (client st) path)
             (accessToken (client st)) jsonBody))) ->
  (forall resp : http.Response,
     roundTrip E (List.length (sent st) + k)
       (authenticatedRequest method (requestURL (client st) path)
          (accessToken (client st)) jsonBody) = inl resp ->
     http.StatusCode resp < 500 \/ k = 3%nat ->
     fst (doRequest E method path body st) = (Some resp, None)
     /\ attempts (snd (doRequest E method path body st))
        = (attempts st + k + 1)%nat)
  /\
  (forall err : error,
     roundTrip E (List.length (sent st) + k)
       (authenticatedRequest method (requestURL (client st) path)
          (accessToken (client st)) jsonBody) = inr err ->
     k = 3%nat ->
     fst (doRequest E method path body st)
     = (None,
        Some (wrapError ("request failed after 4 attempts: " ++ Error err) err))
     /\ attempts (snd (doRequest E method path body st)) = (attempts st + 4)%nat).
Proof.
  intros Hm Hk Hserves Hnew Hscript.
  assert (Hserves_k : tokenServes E st k).
  { destruct Hserves as [Hne Hs]. split; [exact Hne |].
    intros i Hi. apply Hs. lia. }
  destruct (doRequest_loop_after_retries E method path jsonBody k
              (Z.to_nat (maxRetries + 1)) 0 None st)
    as (lastErr' & st' & Hloop & Hc & Hn & Hl & Ha); try assumption.
  { change (Z.to_nat (maxRetries + 1)) with 4%nat. lia. }
  { unfold maxRetries. lia. }
  assert (Hserves' : tokenServes E st' 1).
  { destruct Hserves as [Hne Hs]. split; [now rewrite Hc |].
    intros i Hi. rewrite Hc, Hn, <- Nat.add_assoc. apply Hs. lia. }
  assert (Hfuel : exists fuel', (Z.to_nat (maxRetries + 1) - k = S fuel')%nat).
  { change (Z.to_nat (maxRetries + 1)) with 4%nat.
    exists (3 - k)%nat. lia. }
  destruct Hfuel as (fuel' & Hfuel).
  unfold doRequest. rewrite Hm, Hloop, Hfuel.
  split.
  - intros resp Hrt Hstop.
    rewrite <- Hl, <- Hc in Hrt. rewrite <- Hc in Hnew.
    rewrite (doRequest_loop_turn E fuel' (0 + Z.of_nat k) lastErr' method path
               jsonBody st' (tick st') (accessToken (client st')) resp
               ltac:(unfold maxRetries; lia) (getToken_served E st' 0 Hserves')
               Hnew Hrt).
    replace ((http.StatusCode resp >=? 500) && (0 + Z.of_nat k <? maxRetries))
      with false.
    + split; [reflexivity |]. cbn [snd].
      rewrite attempts_record_request.
      cbn [isAuthenticated authenticatedRequest http.Authorization].
      change (attempts (tick st')) with (attempts st'). lia.
    + symmetry. apply andb_false_iff.
      destruct Hstop as [Hlt | Heq].
      * left. rewrite Z.geb_leb. apply Z.leb_gt. lia.
      * right. apply Z.ltb_ge. unfold maxRetries. lia.
  - intros err Hrt Hlast.
    rewrite <- Hl, <- Hc in Hrt. rewrite <- Hc in Hnew.
    rewrite (doRequest_loop_turn_error E method path jsonBody fuel'
               (0 + Z.of_nat k) lastErr' st' (tick st')
               (accessToken (client st')) err
               ltac:(unfold maxRetries; lia) (getToken_served E st' 0 Hserves')
               Hnew Hrt).
    replace (0 + Z.of_nat k <? maxRetries) with false
      by (symmetry; apply Z.ltb_ge; unfold maxRetries; lia).
    split.
    + cbn [fst]. unfold requestFailed, ErrorfW. cbn.
      now rewrite append_empty_r.
    + cbn [snd]. rewrite attempts_record_request.
      cbn [isAuthenticated authenticatedRequest http.Authorization].
      change (attempts (tick st')) with (attempts st'). lia.
Qed.


(** Transport errors are retried like responses of 500 or more. While the
    cached token serves, [k] <= 3 retryable outcomes followed by a
    response below 500 (or by any response when [k] = 3) end in that
    response after [k] + 1 attempts; three retryable outcomes followed by a
    fourth transport error end, after four attempts, in the error "request
    failed after 4 attempts: {error}" that wraps the last transport
    error. *)
Theorem doRequest_retries_transport_errors
    (E : Env) (method path : string) (body : option (Payload E))
    (jsonBody : option string) (st : Store) (k : nat) :
  marshalRequestBody E body = inl jsonBody ->
  (k <= 3)%nat ->
  tokenServes E st (S k) ->
  newRequestError E method (requestURL (client st) path) = None ->
  (forall i : nat, (i < k)%nat ->
     retryable
       (roundTrip E (List.length (sent st) + i)
          (authenticatedRequest method (requestURL (client st) path)
             (accessToken (client st)) jsonBody))) ->
  (forall resp : http.Response,
     roundTrip E (List.length (sent st) + k)
       (authenticatedRequest method (requestURL (client st) path)
          (accessToken (client st)) jsonBody) = inl resp ->
     http.StatusCode resp < 500 \/ k = 3%nat ->
     fst (doRequest E method path body st) = (Some resp, None)
     /\ attempts (snd (doRequest E method path body st))
        = (attempts st + k + 1)%nat)
  /\
  (forall err : error,
     roundTrip E (List.length (sent st) + k)
       (authenticatedRequest method (requestURL (client st) path)
          (accessToken (client st)) jsonBody) = inr err ->
     k = 3%nat ->
     fst (doRequest E method path body st)
     = (None,
        Some (wrapError ("request failed after 4 attempts: " ++ Error err) err))
     /\ attempts (snd (doRequest E method path body st)) = (attempts st + 4)%nat).
Proof.
  exact (doRequest_after_retries E method path body jsonBody st k).
Qed.

Lemma doRequest_retries_transport_errors_witness :
  (fst (doRequest (Test.env Scenario.refused) "GET" "/test" None
          (Test.store Test.cachedClient))
   = (None,
      Some (wrapError "request failed after 4 attempts: connection refused"
              (errorString "connection refused")))
   /\ attempts (snd (doRequest (Test.env Scenario.refused) "GET" "/test" None
                       (Test.store Test.cachedClient))) = 4%nat)
  /\ (fst (doRequest (Test.env Scenario.resetOnce) "GET" "/test" None
             (Test.store Test.cachedClient))
      = (Some (http.mkResponse 200 (mkBody "ok" None)), None)
      /\ attempts (snd (doRequest (Test.env Scenario.resetOnce) "GET" "/test" None
                          (Test.store Test.cachedClient))) = 2%nat).
Proof.
  split.
  - apply (proj2 (doRequest_retries_transport_errors
                    (Test.env Scenario.refused) "GET" "/test" None None
                    (Test.store Test.cachedClient) 3 eq_refl
                    ltac:(lia) (test_token_serves _ 4 ltac:(lia)) eq_refl
                    (fun i _ => I))
             (errorString "connection refused")); reflexivity.
  - apply (proj1 (doRequest_retries_transport_errors
                    (Test.env Scenario.resetOnce) "GET" "/test" None None
                    (Test.store Test.cachedClient) 1 eq_refl
                    ltac:(lia) (test_token_serves _ 2 ltac:(lia)) eq_refl
                    ltac:(intros i Hi; destruct i as [| i]; [exact I | lia]))
             (http.mkResponse 200 (mkBody "ok" None))).
    + reflexivity.
    + left. simpl. lia.
Defined.

(** ** Token failures reach the caller *)

Lemma FetchToken_status_error
    (E : Env) (st : Store) (body : string) (code : Z) (b : BodyStream) :
  marshalTokenRequest E (tokenRequestBody (client st)) = inl body ->
  newRequestError E http.MethodPost (tokenURL (client st)) = None ->
  roundTrip E (List.length (sent st)) (tokenRequest (client st) body)
  = inl (http.mkResponse code b) ->
  code <> 200 ->
  FetchToken E st
  = (("", 0,
      Some (errorString ("failed to fetch token: status " ++ fmt.FormatInt code))),
     record_request (tokenRequest (client st) body) st).
Proof.
  intros Hm Hn Hr Hcode.
  unfold FetchToken, bind, getClient, ret, Do.
  rewrite Hm, Hn, Hr. cbn [http.StatusCode].
  destruct (Z.eqb_spec code http.StatusOK) as [He | _]; [contradiction |].
  cbn [negb]. unfold Errorf. cbn. now rewrite append_empty_r.
Qed.

Lemma doRequest_token_error
    (E : Env) (method path : string) (body : option (Payload E))
    (jsonBody : option string) (st st1 : Store) (token : string) (e : error) :
  marshalRequestBody E body = inl jsonBody ->
  getToken E st = ((token, Some e), st1) ->
  doRequest E method path body st = ((None, Some e), st1).
Proof.
  intros Hm Hget. unfold doRequest. rewrite Hm.
  change (Z.to_nat (maxRetries + 1)) with 4%nat.
  cbn [doRequest_loop]. change (negb (0 <=? maxRetries)) with false.
  cbv iota. unfold bind at 1. now rewrite Hget.
Qed.

(** With no serving token in the cache and an identity provider that
    answers with a status other than 200, a request is never attempted:
    [doRequest], and with it [GetJob], returns the error "failed to fetch
    token: status {code}" as it is (not wrapped, not retried), exactly one
    token request has been sent, no authenticated one, and the client
    struct is untouched. *)
Theorem token_failure_reaches_the_caller
    (E : Env) (st st1 st2 : Store) (body : string) (code : Z) (b : BodyStream) :
  cachedTokenValid E st = (false, st1) ->
  cachedTokenValid E st1 = (false, st2) ->
  marshalTokenRequest E (tokenRequestBody (client st2)) = inl body ->
  newRequestError E http.MethodPost (tokenURL (client st2)) = None ->
  roundTrip E (List.length (sent st2)) (tokenRequest (client st2) body)
  = inl (http.mkResponse code b) ->
  code <> 200 ->
  let err :=
    errorString ("failed to fetch token: status " ++ fmt.FormatInt code) in
  let st3 := record_request (tokenRequest (client st2) body) st2 in
  (forall (method path : string) (payload : option (Payload E))
          (jsonBody : option string),
     marshalRequestBody E payload = inl jsonBody ->
     doRequest E method path payload st = ((None, Some err), st3))
  /\ (forall id : string, GetJob E id st = ((None, Some err), st3))
  /\ attempts st3 = attempts st
  /\ tokenCalls st3 = S (tokenCalls st)
  /\ client st3 = client st.
Proof.
  intros H1 H2 Hm Hn Hr Hcode err st3.
  assert (Hget : getToken E st = (("", Some err), st3)).
  { rewrite (getToken_stale E st st1 st2 H1 H2).
    now rewrite (FetchToken_status_error E st2 body code b Hm Hn Hr Hcode). }
  assert (Hdo : forall method path payload jsonBody,
             marshalRequestBody E payload = inl jsonBody ->
             doRequest E method path payload st = ((None, Some err), st3)).
  { intros method path payload jsonBody Hmar.
    now apply (doRequest_token_error E method path payload jsonBody st st3 ""). }
  pose proof (cachedTokenValid_client E st) as [Hc1 Hs1].
  pose proof (cachedTokenValid_client E st1) as [Hc2 Hs2].
  rewrite H1 in Hc1, Hs1. rewrite H2 in Hc2, Hs2. simpl in Hc1, Hs1, Hc2, Hs2.
  split; [exact Hdo |]. split; [| split; [| split]].
  - intros id. unfold GetJob, bind.
    now rewrite (Hdo http.MethodGet (jobPath E id) None None eq_refl).
  - unfold st3. rewrite attempts_record_request.
    change (isAuthenticated (tokenRequest (client st2) body)) with false.
    cbn [Nat.add]. apply attempts_same_sent. congruence.
  - unfold st3, tokenCalls. cbn [record_request sent filter].
    change (isAuthenticated (tokenRequest (client st2) body)) with false.
    cbn [negb List.length]. now rewrite Hs2, Hs1.
  - unfold st3. cbn [record_request client]. congruence.
Qed.

Lemma token_failure_reaches_the_caller_witness :
  GetJob (Test.env Scenario.rejecting) "test-id-123"
    (Test.store Test.expiredClient)
  = ((None, Some (errorString "failed to fetch token: status 401")),
     record_request (tokenRequest Test.expiredClient "test:test")
       (tick (tick (Test.store Test.expiredClient))))
  /\ attempts
       (record_request (tokenRequest Test.expiredClient "test:test")
          (tick (tick (Test.store Test.expiredClient)))) = 0%nat.
Proof.
  pose proof (token_failure_reaches_the_caller
                (Test.env Scenario.rejecting)
                (Test.store Test.expiredClient)
                (tick (Test.store Test.expiredClient))
                (tick (tick (Test.store Test.expiredClient)))
                "test:test" 401 (mkBody "access_denied" None)
                eq_refl eq_refl eq_refl eq_refl eq_refl
                ltac:(discriminate)) as H.
  cbv zeta in H. destruct H as (_ & Hget & Hatt & _).
  split; [exact (Hget "test-id-123") | exact Hatt].
Defined.

(** ** Response interpretation *)

(** A response with a status of 400 or more whose body can be read is
    turned into the [APIError] of that status and body, whatever the
    target and its decoder; such an error is a client error or a server
    error and never both, and it is retryable exactly from 500 on. *)
Theorem handleResponse_error_status
    {T : Type} (resp : http.Response) (result : option (string -> T + error))
    (target : T) :
  readErr (http.Body resp) = None ->
  400 <= http.StatusCode resp ->
  let e := mkAPIError (http.StatusCode resp) (bytes (http.Body resp)) in
  handleResponse (Some resp) result target = (target, Some (apiError e))
  /\ IsClientError e = negb (IsServerError e)
  /\ (IsRetryable e = true <-> 500 <= http.StatusCode resp).
Proof.
  intros Hread Hstatus e. split; [| split].
  - unfold handleResponse, ReadAll. rewrite Hread.
    replace (http.StatusCode resp >=? 400) with true; [reflexivity |].
    symmetry. apply Z.geb_le. exact Hstatus.
  - unfold IsClientError, IsServerError, e. cbn [StatusCode].
    replace (http.StatusCode resp >=? 400) with true
      by (symmetry; apply Z.geb_le; exact Hstatus).
    cbn [andb]. rewrite Z.geb_leb, Z.ltb_antisym. reflexivity.
  - unfold IsRetryable, IsServerError, e. cbn [StatusCode].
    rewrite Z.geb_le. reflexivity.
Qed.

Lemma handleResponse_error_status_witness :
  handleResponse (Some (http.mkResponse 409 (mkBody "version conflict" None)))
    (Some Test.decodeJob) zeroJob
  = (zeroJob, Some (apiError (mkAPIError 409 "version conflict")))
  /\ IsClientError (mkAPIError 409 "version conflict")
     = negb (IsServerError (mkAPIError 409 "version conflict"))
  /\ (IsRetryable (mkAPIError 409 "version conflict") = true <-> 500 <= 409).
Proof.
  apply (handleResponse_error_status
           (http.mkResponse 409 (mkBody "version conflict" None))
           (Some Test.decodeJob) zeroJob).
  - reflexivity.
  - simpl. lia.
Defined.

Lemma nonempty_length (s : string) :
  s <> "" -> (0 <? String.length s)%nat = true.
Proof.
  destruct s as [| c s]; [congruence | reflexivity].
Qed.

(** A response with a status below 400 whose body can be read: with no
    target or an empty body the target is left as it is and there is no
    error; with a target and a body, the decoded value is the result, and
    a decoding failure is the error "failed to decode response: {error}",
    which wraps the decoder's error and is not an [APIError]. *)
Theorem handleResponse_success_status
    {T : Type} (resp : http.Response) (result : option (string -> T + error))
    (target : T) :
  readErr (http.Body resp) = None ->
  http.StatusCode resp < 400 ->
  (result = None \/ bytes (http.Body resp) = "" ->
   handleResponse (Some resp) result target = (target, None))
  /\ (forall (unmarshal : string -> T + error) (v : T),
        result = Some unmarshal ->
        bytes (http.Body resp) <> "" ->
        unmarshal (bytes (http.Body resp)) = inl v ->
        handleResponse (Some resp) result target = (v, None))
  /\ (forall (unmarshal : string -> T + error) (e : error),
        result = Some unmarshal ->
        bytes (http.Body resp) <> "" ->
        unmarshal (bytes (http.Body resp)) = inr e ->
        handleResponse (Some resp) result target
        = (target,
           Some (wrapError ("failed to decode response: " ++ Error e) e))).
Proof.
  intros Hread Hstatus.
  assert (Hlt : (http.StatusCode resp >=? 400) = false)
    by (rewrite Z.geb_leb; apply Z.leb_gt; lia).
  unfold handleResponse, ReadAll. rewrite Hread, Hlt.
  split; [| split].
  - intros [-> | Hempty]; [reflexivity |].
    rewrite Hempty. now destruct result.
  - intros unmarshal v -> Hne Hv.
    now rewrite (nonempty_length _ Hne), Hv.
  - intros unmarshal e -> Hne He.
    rewrite (nonempty_length _ Hne), He.
    unfold ErrorfW. cbn. now rewrite append_empty_r.
Qed.

Lemma handleResponse_success_status_witness :
  handleResponse (Some (http.mkResponse 202 (mkBody "" None)))
    (Some Test.decodeJob) zeroJob
  = (zeroJob, None)
  /\ handleResponse (Some (http.mkResponse 200 (mkBody "RUNNING" None)))
       (Some Test.decodeJob) zeroJob
     = (mkJob "test-id-123" 1 "test_pipeline" "RUNNING" "RUNNING", None)
  /\ handleResponse (Some (http.mkResponse 200 (mkBody "{" None)))
       (Some (fun _ : string =>
                inr (errorString "unexpected end of JSON input") : Job + error))
       zeroJob
     = (zeroJob,
        Some (wrapError "failed to decode response: unexpected end of JSON input"
                (errorString "unexpected end of JSON input"))).
Proof.
  split; [| split].
  - apply (proj1 (handleResponse_success_status
                    (http.mkResponse 202 (mkBody "" None))
                    (Some Test.decodeJob) zeroJob eq_refl ltac:(simpl; lia))).
    right. reflexivity.
  - apply (proj1 (proj2 (handleResponse_success_status
                           (http.mkResponse 200 (mkBody "RUNNING" None))
                           (Some Test.decodeJob) zeroJob eq_refl
                           ltac:(simpl; lia)))
             Test.decodeJob); [reflexivity | simpl; discriminate | reflexivity].
  - apply (proj2 (proj2 (handleResponse_success_status
                           (http.mkResponse 200 (mkBody "{" None))
                           (Some (fun _ : string =>
                                    inr (errorString "unexpected end of JSON input")
                                    : Job + error))
                           zeroJob eq_refl ltac:(simpl; lia)))
             (fun _ : string =>
                inr (errorString "unexpected end of JSON input") : Job + error)
             (errorString "unexpected end of JSON input"));
      [reflexivity | simpl; discriminate | reflexivity].
Defined.

(** ** The job operations *)

(** Each job operation turns a final response with a status of 400 or
    more (and a readable body) into the [APIError] of that status and
    body, and returns no job: so a 404 surfaces as not-found and a 409 as
    conflict, on every operation alike. *)
Theorem operations_surface_api_errors
    (E : Env) (resp : http.Response) (st st' : Store) :
  readErr (http.Body resp) = None ->
  400 <= http.StatusCode resp ->
  let e := apiError (mkAPIError (http.StatusCode resp) (bytes (http.Body resp))) in
  (forall id : string,
     doRequest E http.MethodGet (jobPath E id) None st = ((Some resp, None), st') ->
     GetJob E id st = ((None, Some e), st'))
  /\ (forall name : string,
        doRequest E http.MethodGet (jobsByNamePath E name) None st
        = ((Some resp, None), st') ->
        GetJobByName E name st = ((None, Some e), st'))
  /\ (forall req : Payload E,
        doRequest E http.MethodPost EndpointJobsAsync (Some req) st
        = ((Some resp, None), st') ->
        CreateAsyncJob E req st = ((None, Some e), st'))
  /\ (forall (id : string) (req : Payload E) (rollbackEnabled : bool),
        doRequest E MethodPut (updatePath E id rollbackEnabled) (Some req) st
        = ((Some resp, None), st') ->
        UpdateJob E id req rollbackEnabled st = ((None, Some e), st'))
  /\ (forall id : string,
        doRequest E MethodDelete (jobPath E id) None st = ((Some resp, None), st') ->
        DeleteJob E id st = (Some e, st')).
Proof.
  intros Hread Hstatus e.
  assert (Hh : forall (T : Type) (result : option (string -> T + error))
                      (target : T),
             handleResponse (Some resp) result target = (target, Some e)).
  { intros T result target.
    unfold handleResponse, ReadAll. rewrite Hread.
    replace (http.StatusCode resp >=? 400) with true; [reflexivity |].
    symmetry. apply Z.geb_le. exact Hstatus. }
  repeat split.
  - intros id Hdo. unfold GetJob, bind. now rewrite Hdo, Hh.
  - intros name Hdo. unfold GetJobByName, bind. now rewrite Hdo, Hh.
  - intros req Hdo. unfold CreateAsyncJob, bind. now rewrite Hdo, Hh.
  - intros id req rb Hdo. unfold UpdateJob, bind. now rewrite Hdo, Hh.
  - intros id Hdo. unfold DeleteJob, bind. now rewrite Hdo, Hh.
Qed.

Lemma operations_surface_api_errors_witness :
  fst (GetJob (Test.env (Test.always 404 "job not found")) "nonexistent"
         (Test.store Test.cachedClient))
  = (None, Some (apiError (mkAPIError 404 "job not found")))
  /\ fst (UpdateJob (Test.env (Test.always 409 "version conflict"))
            "test-id-123" "{}" false (Test.store Test.cachedClient))
     = (None, Some (apiError (mkAPIError 409 "version conflict")))
  /\ fst (DeleteJob (Test.env (Test.always 404 "job not found")) "nonexistent"
            (Test.store Test.cachedClient))
     = Some (apiError (mkAPIError 404 "job not found")).
Proof.
  split; [| split].
  - rewrite (proj1 (operations_surface_api_errors
                      (Test.env (Test.always 404 "job not found"))
                      (http.mkResponse 404 (mkBody "job not found" None))
                      (Test.store Test.cachedClient) _
                      eq_refl ltac:(simpl; lia))
               "nonexistent" eq_refl).
    reflexivity.
  - rewrite (proj1 (proj2 (proj2 (proj2
               (operations_surface_api_errors
                  (Test.env (Test.always 409 "version conflict"))
                  (http.mkResponse 409 (mkBody "version conflict" None))
                  (Test.store Test.cachedClient) _
                  eq_refl ltac:(simpl; lia)))))
               "test-id-123" "{}" false eq_refl).
    reflexivity.
  - rewrite (proj2 (proj2 (proj2 (proj2
               (operations_surface_api_errors
                  (Test.env (Test.always 404 "job not found"))
                  (http.mkResponse 404 (mkBody "job not found" None))
                  (Test.store Test.cachedClient) _
                  eq_refl ltac:(simpl; lia)))))
               "nonexistent" eq_refl).
    reflexivity.
Defined.

(** [GetJob] from request to result, while the cached token serves: after
    [k] <= 3 retryable outcomes, a response below 500 (or any response
    when [k] = 3) is interpreted after exactly [k] + 1 attempts. A status
    of 400 or more gives the [APIError] of that status, so a 4xx is
    reported on the attempt it arrives and a 5xx only on the fourth; a
    status below 400 gives the decoded job, and the zero-valued job when
    the body is empty. *)
Theorem GetJob_end_to_end
    (E : Env) (id : string) (st : Store) (k : nat) (resp : http.Response) :
  (k <= 3)%nat ->
  tokenServes E st (S k) ->
  newRequestError E http.MethodGet (requestURL (client st) (jobPath E id)) = None ->
  (forall i : nat, (i < k)%nat ->
     retryable
       (roundTrip E (List.length (sent st) + i)
          (authenticatedRequest http.MethodGet
             (requestURL (client st) (jobPath E id))
             (accessToken (client st)) None))) ->
  roundTrip E (List.length (sent st) + k)
    (authenticatedRequest http.MethodGet (requestURL (client st) (jobPath E id))
       (accessToken (client st)) None) = inl resp ->
  http.StatusCode resp < 500 \/ k = 3%nat ->
  readErr (http.Body resp) = None ->
  attempts (snd (GetJob E id st)) = (attempts st + k + 1)%nat
  /\ (400 <= http.StatusCode resp ->
      fst (GetJob E id st)
      = (None,
         Some (apiError (mkAPIError (http.StatusCode resp)
                           (bytes (http.Body resp))))))
  /\ (http.StatusCode resp < 400 ->
      bytes (http.Body resp) = "" ->
      fst (GetJob E id st) = (Some zeroJob, None))
  /\ (forall job : Job,
        http.StatusCode resp < 400 ->
        bytes (http.Body resp) <> "" ->
        unmarshalJob E (bytes (http.Body resp)) = inl job ->
        fst (GetJob E id st) = (Some job, None)).
Proof.
  intros Hk Hserves Hnew Hscript Hrt Hstop Hread.
  destruct (proj1 (doRequest_after_retries E http.MethodGet (jobPath E id)
                     None None st k eq_refl Hk Hserves Hnew Hscript)
              resp Hrt Hstop) as [Hres Hatt].
  unfold GetJob, bind.
  destruct (doRequest E http.MethodGet (jobPath E id) None st)
    as [[r e] st'] eqn:Hdo.
  cbn [fst snd] in Hres, Hatt. inversion Hres; subst r e.
  unfold handleResponse, ReadAll. rewrite Hread.
  destruct (Z.geb_spec (http.StatusCode resp) 400) as [Hge | Hlt].
  - repeat split; try (intros; lia); try exact Hatt.
  - split; [| split; [| split]].
    + destruct (0 <? String.length (bytes (http.Body resp)))%nat;
        [destruct (unmarshalJob E (bytes (http.Body resp))) |]; exact Hatt.
    + intros Hge. lia.
    + intros _ Hempty. now rewrite Hempty.
    + intros job _ Hne Hjob. now rewrite (nonempty_length _ Hne), Hjob.
Qed.

Lemma GetJob_end_to_end_witness :
  (attempts (snd (GetJob (Test.env (Test.always 500 "internal server error"))
                    "test-id-123" (Test.store Test.cachedClient))) = 4%nat
   /\ fst (GetJob (Test.env (Test.always 500 "internal server error"))
             "test-id-123" (Test.store Test.cachedClient))
      = (None, Some (apiError (mkAPIError 500 "internal server error"))))
  /\ (attempts (snd (GetJob (Test.env (Test.always 200 ""))
                       "test-id-123" (Test.store Test.cachedClient))) = 1%nat
      /\ fst (GetJob (Test.env (Test.always 200 ""))
                "test-id-123" (Test.store Test.cachedClient))
         = (Some zeroJob, None))
  /\ fst (GetJob (Test.env Scenario.resetOnce) "test-id-123"
            (Test.store Test.cachedClient))
     = (Some (mkJob "test-id-123" 1 "test_pipeline" "ok" "RUNNING"), None).
Proof.
  split; [| split].
  - pose proof (GetJob_end_to_end
                  (Test.env (Test.always 500 "internal server error"))
                  "test-id-123" (Test.store Test.cachedClient) 3
                  (http.mkResponse 500 (mkBody "internal server error" None))
                  ltac:(lia) (test_token_serves _ 4 ltac:(lia)) eq_refl
                  ltac:(intros i Hi; simpl; lia) eq_refl
                  (or_intror eq_refl) eq_refl) as (Hatt & Herr & _).
    split; [exact Hatt | apply Herr; simpl; lia].
  - pose proof (GetJob_end_to_end
                  (Test.env (Test.always 200 ""))
                  "test-id-123" (Test.store Test.cachedClient) 0
                  (http.mkResponse 200 (mkBody "" None))
                  ltac:(lia) (test_token_serves _ 1 ltac:(lia)) eq_refl
                  ltac:(intros i Hi; lia) eq_refl
                  ltac:(left; simpl; lia) eq_refl) as (Hatt & _ & Hzero & _).
    split; [exact Hatt | apply Hzero; [simpl; lia | reflexivity]].
  - pose proof (GetJob_end_to_end
                  (Test.env Scenario.resetOnce)
                  "test-id-123" (Test.store Test.cachedClient) 1
                  (http.mkResponse 200 (mkBody "ok" None))
                  ltac:(lia) (test_token_serves _ 2 ltac:(lia)) eq_refl
                  ltac:(intros i Hi; destruct i as [| i]; [exact I | lia])
                  eq_refl ltac:(left; simpl; lia) eq_refl) as (_ & _ & _ & Hjob).
    apply Hjob; [simpl; lia | simpl; discriminate | reflexivity].
Defined.

(** ** URLs *)

(** The URLs the client asks for: host and path are joined as they are,
    identifiers and names enter only through [PathEscape] and
    [QueryEscape], and the rollback flag is spelled true or false. *)
Theorem request_urls (E : Env) (c : Client) (id name : string) (rollback : bool) :
  requestURL c (jobPath E id) = host c ++ "/api/v1/jobs/" ++ PathEscape E id
  /\ requestURL c (jobsByNamePath E name)
     = host c ++ "/api/v1/jobs?name=" ++ QueryEscape E name
  /\ requestURL c (updatePath E id rollback)
     = host c ++ "/api/v1/jobs/" ++ PathEscape E id ++ "?rollbackEnabled="
       ++ (if rollback then "true" else "false")
  /\ requestURL c EndpointJobsAsync = host c ++ "/api/v1/jobs/async"
  /\ tokenURL c = "https://" ++ auth0Domain c ++ "/oauth/token".
Proof.
  rewrite !requestURL_append.
  unfold jobPath, jobsByNamePath, updatePath, tokenURL.
  repeat split; try (destruct rollback); cbn; rewrite ?append_empty_r;
    reflexivity.
Qed.

(** ** A new client *)

(** A client from [NewClient] has the default identity provider domain
    exactly when none is configured, and an empty cache: its first
    [getToken] does not read the clock and goes straight to [FetchToken],
    returning its error, or its token after storing it. *)
Theorem NewClient_first_getToken
    (E : Env) (cfg : config.Config) (st : Store) :
  client st = NewClient cfg ->
  auth0Domain (client st)
  = (if String.eqb (config.Auth0Domain cfg) "" then "grepr-prod.us.auth0.com"
     else config.Auth0Domain cfg)
  /\ auth0Domain (client st) <> ""
  /\ cachedTokenValid E st = (false, st)
  /\ (forall (tok : string) (exp : Z) (e : error) (st3 : Store),
        FetchToken E st = ((tok, exp, Some e), st3) ->
        getToken E st = (("", Some e), st3))
  /\ (forall (tok : string) (exp : Z) (st3 : Store),
        FetchToken E st = ((tok, exp, None), st3) ->
        fst (getToken E st) = (tok, None)
        /\ accessToken (client (snd (getToken E st))) = tok
        /\ nowCalls (snd (getToken E st)) = S (nowCalls st3)).
Proof.
  intros Hc.
  assert (Hempty : accessToken (client st) = "") by now rewrite Hc.
  pose proof (cachedTokenValid_empty E st Hempty) as Hv.
  split; [now rewrite Hc | split; [| split; [exact Hv | split]]].
  - rewrite Hc. unfold NewClient. cbn [auth0Domain].
    destruct (String.eqb_spec (config.Auth0Domain cfg) "") as [He | Hne];
      [discriminate | exact Hne].
  - intros tok exp e st3 Hf.
    now rewrite (getToken_stale E st st st Hv Hv), Hf.
  - intros tok exp st3 Hf.
    rewrite (getToken_stale E st st st Hv Hv), Hf. repeat split.
Qed.

Lemma NewClient_first_getToken_witness :
  auth0Domain Scenario.freshClient = "grepr-prod.us.auth0.com"
  /\ fst (getToken (Test.env (Test.tokenServer 200 "new-token"))
            (Test.store Scenario.freshClient))
     = ("new-token", None)
  /\ nowCalls (snd (getToken (Test.env (Test.tokenServer 200 "new-token"))
                      (Test.store Scenario.freshClient))) = 1%nat.
Proof.
  pose proof (NewClient_first_getToken
                (Test.env (Test.tokenServer 200 "new-token"))
                (config.mkConfig "http://127.0.0.1:8080" "test" "test" "")
                (Test.store Scenario.freshClient) eq_refl)
    as (Hd & _ & _ & _ & Hok).
  split; [exact Hd |].
  destruct (Hok "new-token" 86400
              (record_request (tokenRequest Scenario.freshClient "test:test")
                 (Test.store Scenario.freshClient)) eq_refl)
    as (Htok & _ & Hnow).
  split; [exact Htok | exact Hnow].
Defined.

(** ** The lifetime of a cached token *)

(** After a refresh that returned a non-empty token, the cache holds that
    token with the expiry that l. 123 computes: the clock reading taken
    after the fetch plus the lifetime [time.Duration(expiresIn) *
    time.Second], an int64 product (equal to [expiresIn] seconds when
    those nanoseconds fit in int64). From then on the token is served from
    the cache as long as less than the lifetime minus 60 seconds have
    passed since that reading. When the lifetime is 60 seconds or less
    (also when the product has wrapped to a negative Duration) the token
    is never served: both checks of [getToken] fail, so every call goes to
    the identity provider. *)
Theorem cached_token_lifetime
    (E : Env) (st st1 st2 st3 : Store) (token : string) (expiresIn : Z) :
  cachedTokenValid E st = (false, st1) ->
  cachedTokenValid E st1 = (false, st2) ->
  FetchToken E st2 = ((token, expiresIn, None), st3) ->
  token <> "" ->
  let stored := clock E (nowCalls st3) in
  let lifetime := Int64.mul expiresIn time.Second in
  fst (getToken E st) = (token, None)
  /\ accessToken (client (snd (getToken E st))) = token
  /\ tokenExpiry (client (snd (getToken E st))) = time.Add stored lifetime
  /\ (Int64.in_range (expiresIn * time.Second) ->
      lifetime = expiresIn * time.Second)
  /\ forall st' : Store,
       client st' = client (snd (getToken E st)) ->
       (clock E (nowCalls st') - stored < lifetime - 60 * time.Second ->
        getToken E st' = ((token, None), tick st'))
       /\ (lifetime <= 60 * time.Second ->
           stored <= clock E (nowCalls st') ->
           stored <= clock E (S (nowCalls st')) ->
           cachedTokenValid E st' = (false, tick st')
           /\ cachedTokenValid E (tick st') = (false, tick (tick st'))
           /\ getToken E st'
              = (let '((token', expiresIn', err), st3') :=
                   FetchToken E (tick (tick st')) in
                 match err with
                 | Some e => (("", Some e), st3')
                 | None =>
                     ((token', None),
                      tick (with_client
                              (with_tokenExpiry
                                 (time.Add (clock E (nowCalls st3'))
                                    (Int64.mul expiresIn' time.Second))
                                 (with_accessToken token' (client st3')))
                              st3'))
                 end)).
Proof.
  intros H1 H2 Hfetch Htoken stored lifetime.
  rewrite (getToken_stale E st st1 st2 H1 H2), Hfetch.
  cbn [fst snd tick with_client client with_tokenExpiry with_accessToken
       accessToken tokenExpiry].
  fold stored. fold lifetime.
  split; [reflexivity | split; [reflexivity | split; [reflexivity | split]]].
  - intros Hrange. unfold lifetime, Int64.mul. now apply wrap64_in_range.
  - intros st' Hc.
    assert (Hne : accessToken (client st') <> "") by now rewrite Hc.
    assert (Hexp : tokenExpiry (client st') = time.Add stored lifetime)
      by now rewrite Hc.
    assert (Htok : accessToken (client st') = token) by now rewrite Hc.
    split.
    + intros Hwindow.
      unfold getToken, bind at 1.
      rewrite cachedTokenValid_nonempty by assumption.
      replace (time.Before
                 (time.Add (clock E (nowCalls st')) tokenRefreshBuffer)
                 (tokenExpiry (client st'))) with true.
      * rewrite <- Htok. reflexivity.
      * symmetry. rewrite Hexp. apply Z.ltb_lt.
        unfold time.Add, tokenRefreshBuffer, time.Second in *. lia.
    + intros Hshort Hnow Hnext.
      assert (Hv1 : cachedTokenValid E st' = (false, tick st')).
      { rewrite cachedTokenValid_nonempty by assumption. f_equal.
        rewrite Hexp. apply Z.ltb_ge.
        unfold time.Add, tokenRefreshBuffer, time.Second in *. lia. }
      assert (Hv2 : cachedTokenValid E (tick st') = (false, tick (tick st'))).
      { rewrite cachedTokenValid_nonempty by assumption. f_equal.
        cbn [tick client nowCalls]. rewrite Hexp. apply Z.ltb_ge.
        unfold time.Add, tokenRefreshBuffer, time.Second in *. lia. }
      split; [exact Hv1 | split; [exact Hv2 |]].
      exact (getToken_stale E st' (tick st') (tick (tick st')) Hv1 Hv2).
Qed.

Lemma cached_token_lifetime_witness :
  (tokenExpiry
     (client (snd (getToken (Test.env (Test.tokenServer 200 "new-token"))
                     (Test.store Test.expiredClient))))
   = 2 * time.Millisecond + 86400 * time.Second
   /\ fst (getToken (Test.env (Test.tokenServer 200 "new-token"))
             (snd (getToken (Test.env (Test.tokenServer 200 "new-token"))
                     (Test.store Test.expiredClient))))
      = ("new-token", None)
   /\ tokenCalls
        (snd (getToken (Test.env (Test.tokenServer 200 "new-token"))
                (snd (getToken (Test.env (Test.tokenServer 200 "new-token"))
                        (Test.store Test.expiredClient))))) = 1%nat)
  /\ (tokenExpiry
        (client (snd (getToken
                        (Scenario.shortTokenEnv (Test.tokenServer 200 "new-token"))
                        (Test.store Test.expiredClient))))
      = 2 * time.Millisecond + 30 * time.Second
      /\ tokenCalls
           (snd (getToken
                   (Scenario.shortTokenEnv (Test.tokenServer 200 "new-token"))
                   (snd (getToken
                           (Scenario.shortTokenEnv
                              (Test.tokenServer 200 "new-token"))
                           (Test.store Test.expiredClient))))) = 2%nat).
Proof.
  split.
  - pose proof (cached_token_lifetime
                  (Test.env (Test.tokenServer 200 "new-token"))
                  (Test.store Test.expiredClient)
                  (tick (Test.store Test.expiredClient))
                  (tick (tick (Test.store Test.expiredClient)))
                  (record_request (tokenRequest Test.expiredClient "test:test")
                     (tick (tick (Test.store Test.expiredClient))))
                  "new-token" 86400 eq_refl eq_refl eq_refl
                  ltac:(discriminate)) as H.
    cbv zeta in H. destruct H as (_ & _ & Hexp & _ & Hlater).
    split; [exact Hexp |].
    destruct (Hlater _ eq_refl) as [Hserved _].
    rewrite Hserved; [split; reflexivity |].
    vm_compute. reflexivity.
  - pose proof (cached_token_lifetime
                  (Scenario.shortTokenEnv (Test.tokenServer 200 "new-token"))
                  (Test.store Test.expiredClient)
                  (tick (Test.store Test.expiredClient))
                  (tick (tick (Test.store Test.expiredClient)))
                  (record_request (tokenRequest Test.expiredClient "test:test")
                     (tick (tick (Test.store Test.expiredClient))))
                  "new-token" 30 eq_refl eq_refl eq_refl
                  ltac:(discriminate)) as H.
    cbv zeta in H. destruct H as (_ & _ & Hexp & _ & Hlater).
    split; [exact Hexp |].
    destruct (Hlater _ eq_refl) as [_ Hnever].
    destruct Hnever as (_ & _ & Hget).
    + vm_compute. discriminate.
    + vm_compute. discriminate.
    + vm_compute. discriminate.
    + rewrite Hget. reflexivity.
Defined.

(** A lifetime whose nanoseconds do not fit in int64 wraps to a negative
    Duration. *)
Example lifetime_wraps :
  Int64.mul 9223372037 time.Second = -9223372036709551616.
Proof. reflexivity. Qed.

(** ** Stable and terminal states *)

(** The stable states are RUNNING, STOPPED and the four terminal states;
    every terminal state is stable, RUNNING and STOPPED are stable without
    being terminal, and the initial and transitional states of the
    lifecycle are neither. The comparison is exact: a state in another
    letter case, or the empty state of a zero-valued job, is neither. *)
Theorem stable_and_terminal_states :
  (forall s : JobState,
     IsStable s = true
     <-> s = "RUNNING" \/ s = "STOPPED" \/ s = "FINISHED" \/ s = "FAILED"
         \/ s = "CANCELLED" \/ s = "DELETED")
  /\ (forall s : JobState, IsTerminal s = true -> IsStable s = true)
  /\ IsTerminal JobStateRunning = false
  /\ IsTerminal JobStateStopped = false
  /\ Forall (fun s => IsStable s = false)
       [JobStateCreated; JobStatePending; JobStateStarting; JobStateStopping;
        JobStateUpdating; "running"; State zeroJob].
Proof.
  assert (Hstable : forall s : JobState,
            IsStable s = true
            <-> s = "RUNNING" \/ s = "STOPPED" \/ s = "FINISHED" \/ s = "FAILED"
                \/ s = "CANCELLED" \/ s = "DELETED").
  { intros s. unfold IsStable.
    destruct (String.eqb_spec s JobStateRunning) as [-> | Hr].
    - cbn [orb]. split; [now left | reflexivity].
    - destruct (String.eqb_spec s JobStateStopped) as [-> | Hs].
      + cbn [orb]. split; [right; now left | reflexivity].
      + cbn [orb]. rewrite IsTerminal_states.
        unfold JobStateRunning, JobStateStopped in *. tauto. }
  split; [exact Hstable | split; [| split; [| split]]].
  - intros s Hterm. apply Hstable. apply IsTerminal_states in Hterm. tauto.
  - reflexivity.
  - reflexivity.
  - repeat constructor.
Qed.

(** ** A body that cannot be marshalled *)

(** When [json.Marshal] fails on the body, [doRequest] returns the error
    "failed to marshal request body: {error}" and nothing has happened: no
    token was asked for, the clock was not read, no request was sent. So
    [CreateAsyncJob] and [UpdateJob] return that error with the store as
    it was. *)
Theorem unmarshallable_body_sends_nothing
    (E : Env) (req : Payload E) (err : error) (st : Store) :
  marshalBody E req = inr err ->
  let e := wrapError ("failed to marshal request body: " ++ Error err) err in
  (forall method path : string,
     doRequest E method path (Some req) st = ((None, Some e), st))
  /\ CreateAsyncJob E req st = ((None, Some e), st)
  /\ (forall (id : string) (rollbackEnabled : bool),
        UpdateJob E id req rollbackEnabled st = ((None, Some e), st)).
Proof.
  intros Hm e.
  assert (Hdo : forall method path : string,
             doRequest E method path (Some req) st = ((None, Some e), st)).
  { intros method path. unfold doRequest, marshalRequestBody. rewrite Hm.
    unfold ret, ErrorfW, e. cbn. now rewrite append_empty_r. }
  split; [exact Hdo | split].
  - unfold CreateAsyncJob, bind. now rewrite Hdo.
  - intros id rb. unfold UpdateJob, bind. now rewrite Hdo.
Qed.

Lemma unmarshallable_body_sends_nothing_witness :
  CreateAsyncJob (Scenario.unmarshallableEnv (Test.always 200 "PENDING"))
    "payload" (Test.store Test.expiredClient)
  = ((None,
      Some (wrapError "failed to marshal request body: json: unsupported value"
              (errorString "json: unsupported value"))),
     Test.store Test.expiredClient).
Proof.
  apply (unmarshallable_body_sends_nothing
           (Scenario.unmarshallableEnv (Test.always 200 "PENDING"))
           "payload" (errorString "json: unsupported value")
           (Test.store Test.expiredClient) eq_refl).
Defined.

(** ** The wait loops: what ends them *)

Section WaitOutcomes.

Variable E : Env.
Variables (id : string) (timeout : time.Duration).

(** [WaitForState] ends with the job and no error in the turn that reads
    the desired state, also when that state is terminal; a failed read
    ends it with no job and the error of the read, unless the error is a
    not-found [APIError] and the desired state is DELETED. *)
Theorem WaitForState_success_and_errors
    (desiredState : JobState) (st0 st : Store) (k fuel : nat) :
  turns (WaitForState_turn E id desiredState (entryDeadline E timeout st0)) k
    (tick st0) = Some st ->
  time.After (clock E (nowCalls st)) (entryDeadline E timeout st0) = false ->
  (forall (job : Job) (st' : Store),
     GetJob E id (tick st) = ((Some job, None), st') ->
     State job = desiredState ->
     WaitForState E (k + S fuel) id desiredState timeout st0
     = Some ((Some job, None), st'))
  /\ (forall (job : option Job) (err : error) (st' : Store),
        GetJob E id (tick st) = ((job, Some err), st') ->
        (forall apiErr : APIError,
           err = apiError apiErr ->
           IsNotFound apiErr = true -> desiredState <> JobStateDeleted) ->
        WaitForState E (k + S fuel) id desiredState timeout st0
        = Some ((None, Some err), st')).
Proof.
  intros Hk Hafter. split.
  - intros job st' Hget Hstate.
    unfold WaitForState, Now.
    apply (forever_return_after _ k fuel _ st); [exact Hk |].
    unfold WaitForState_turn, bind at 1. unfold Now.
    fold (entryDeadline E timeout st0). rewrite Hafter.
    unfold bind. rewrite Hget.
    now rewrite (proj2 (String.eqb_eq (State job) desiredState) Hstate).
  - intros job err st' Hget Hnot.
    unfold WaitForState, Now.
    apply (forever_return_after _ k fuel _ st); [exact Hk |].
    unfold WaitForState_turn, bind at 1. unfold Now.
    fold (entryDeadline E timeout st0). rewrite Hafter.
    unfold bind. rewrite Hget.
    destruct err as [s | msg inner | apiErr]; try reflexivity.
    destruct (IsNotFound apiErr) eqn:Hnf; [| reflexivity].
    destruct (String.eqb_spec desiredState JobStateDeleted) as [Heq | Hneq];
      [| reflexivity].
    exfalso. exact (Hnot apiErr eq_refl Hnf Heq).
Qed.

(** [WaitForStableState] ends with the job in the turn that reads a
    stable state, with the error "timeout waiting for job {id} to reach a
    stable state" in the turn that starts after the deadline, and with the
    error of the read in the turn whose read fails: a not-found job is an
    error here, not a success. *)
Theorem WaitForStableState_outcomes (st0 st : Store) (k fuel : nat) :
  turns (WaitForStableState_turn E id (entryDeadline E timeout st0)) k
    (tick st0) = Some st ->
  (time.After (clock E (nowCalls st)) (entryDeadline E timeout st0) = true ->
   WaitForStableState E (k + S fuel) id timeout st0
   = Some ((None,
            Some (errorString
                    ("timeout waiting for job " ++ id
                     ++ " to reach a stable state"))),
           tick st))
  /\ (time.After (clock E (nowCalls st)) (entryDeadline E timeout st0) = false ->
      (forall (job : Job) (st' : Store),
         GetJob E id (tick st) = ((Some job, None), st') ->
         IsStable (State job) = true ->
         WaitForStableState E (k + S fuel) id timeout st0
         = Some ((Some job, None), st'))
      /\ (forall (job : option Job) (err : error) (st' : Store),
            GetJob E id (tick st) = ((job, Some err), st') ->
            WaitForStableState E (k + S fuel) id timeout st0
            = Some ((None, Some err), st'))).
Proof.
  intros Hk. split.
  - intros Hafter. unfold WaitForStableState, Now.
    apply (forever_return_after _ k fuel _ st); [exact Hk |].
    unfold WaitForStableState_turn, bind, Now, ret.
    fold (entryDeadline E timeout st0). rewrite Hafter.
    unfold Errorf. cbn. reflexivity.
  - intros Hafter. split.
    + intros job st' Hget Hstable.
      unfold WaitForStableState, Now.
      apply (forever_return_after _ k fuel _ st); [exact Hk |].
      unfold WaitForStableState_turn, bind at 1. unfold Now.
      fold (entryDeadline E timeout st0). rewrite Hafter.
      unfold bind. now rewrite Hget, Hstable.
    + intros job err st' Hget.
      unfold WaitForStableState, Now.
      apply (forever_return_after _ k fuel _ st); [exact Hk |].
      unfold WaitForStableState_turn, bind at 1. unfold Now.
      fold (entryDeadline E timeout st0). rewrite Hafter.
      unfold bind. now rewrite Hget.
Qed.

(** [WaitForDeletion] ends without error in the turn whose read fails
    with a not-found [APIError] or returns a job in state DELETED, and
    with the error of the read for any other failure. A job in any other
    state, terminal or not, does not end it: with the context still live
    the loop waits for the poll interval and takes another turn. *)
Theorem WaitForDeletion_outcomes (st0 st : Store) (k fuel : nat) :
  turns (WaitForDeletion_turn E id (entryDeadline E timeout st0)) k
    (tick st0) = Some st ->
  time.After (clock E (nowCalls st)) (entryDeadline E timeout st0) = false ->
  (forall (job : option Job) (apiErr : APIError) (st' : Store),
     GetJob E id (tick st) = ((job, Some (apiError apiErr)), st') ->
     IsNotFound apiErr = true ->
     WaitForDeletion E (k + S fuel) id timeout st0 = Some (None, st'))
  /\ (forall (job : Job) (st' : Store),
        GetJob E id (tick st) = ((Some job, None), st') ->
        State job = JobStateDeleted ->
        WaitForDeletion E (k + S fuel) id timeout st0 = Some (None, st'))
  /\ (forall (job : option Job) (err : error) (st' : Store),
        GetJob E id (tick st) = ((job, Some err), st') ->
        (forall apiErr : APIError,
           err = apiError apiErr -> IsNotFound apiErr = false) ->
        WaitForDeletion E (k + S fuel) id timeout st0 = Some (Some err, st'))
  /\ (forall (job : Job) (st' : Store),
        GetJob E id (tick st) = ((Some job, None), st') ->
        State job <> JobStateDeleted ->
        ctxDone E (selects st') = None ->
        turns (WaitForDeletion_turn E id (entryDeadline E timeout st0)) (S k)
          (tick st0)
        = Some (record_select (record_sleep (pollInterval E) st'))).
Proof.
  intros Hk Hafter.
  assert (Hturn : forall r st',
            WaitForDeletion_turn E id (entryDeadline E timeout st0) st
            = (Return r, st') ->
            WaitForDeletion E (k + S fuel) id timeout st0 = Some (r, st')).
  { intros r st' Hbody. unfold WaitForDeletion, Now.
    now apply (forever_return_after _ k fuel _ st). }
  assert (Hunfold : forall job err st',
            GetJob E id (tick st) = ((job, err), st') ->
            WaitForDeletion_turn E id (entryDeadline E timeout st0) st
            = match err with
              | Some e =>
                  match e with
                  | apiError apiErr =>
                      if IsNotFound apiErr then (Return None, st')
                      else (Return (Some e), st')
                  | _ => (Return (Some e), st')
                  end
              | None =>
                  match job with
                  | None => (Return (Some nilDereference), st')
                  | Some job =>
                      if String.eqb (State job) JobStateDeleted
                      then (Return None, st')
                      else
                        match selectDone E st' with
                        | (Some ctxErr, st'') => (Return (Some ctxErr), st'')
                        | (None, st'') => (Continue, st'')
                        end
                  end
              end).
  { intros job err st' Hget.
    unfold WaitForDeletion_turn, bind at 1. unfold Now.
    rewrite Hafter. unfold bind at 1. rewrite Hget.
    destruct err as [[s | msg inner | apiErr] |]; try reflexivity.
    - destruct (IsNotFound apiErr); reflexivity.
    - destruct job as [job |]; [| reflexivity].
      destruct (String.eqb (State job) JobStateDeleted); [reflexivity |].
      unfold bind. destruct (selectDone E st') as [[ctxErr |] st'']; reflexivity. }
  split; [| split; [| split]].
  - intros job apiErr st' Hget Hnf. apply Hturn.
    now rewrite (Hunfold _ _ _ Hget), Hnf.
  - intros job st' Hget Hstate. apply Hturn.
    rewrite (Hunfold _ _ _ Hget).
    now rewrite (proj2 (String.eqb_eq (State job) JobStateDeleted) Hstate).
  - intros job err st' Hget Hnot. apply Hturn.
    rewrite (Hunfold _ _ _ Hget).
    destruct err as [s | msg inner | apiErr]; try reflexivity.
    now rewrite (Hnot apiErr eq_refl).
  - intros job st' Hget Hstate Hctx.
    replace (S k) with (k + 1)%nat by lia.
    assert (Hbody : WaitForDeletion_turn E id (entryDeadline E timeout st0) st
                    = (Continue, record_select (record_sleep (pollInterval E) st'))).
    { rewrite (Hunfold _ _ _ Hget).
      destruct (String.eqb_spec (State job) JobStateDeleted) as [Heq | _];
        [contradiction |].
      unfold selectDone. now rewrite Hctx. }
    clear Hturn Hunfold. revert Hk Hbody.
    generalize (WaitForDeletion_turn E id (entryDeadline E timeout st0)).
    generalize (tick st0). clear.
    induction k as [| k IH]; intros s0 body Hk Hbody.
    + simpl in *. inversion Hk; subst. now rewrite Hbody.
    + simpl in *. destruct (body s0) as [[| r] s1]; [| discriminate].
      now apply IH.
Qed.

(** When the context is done at the [select] that follows a read of a job
    that neither is at the target nor ends the wait, each of the three
    loops returns the context's error at once, and the poll interval has
    not been waited. *)
Theorem waits_end_on_cancellation
    (desiredState : JobState) (st0 st st' : Store) (k fuel : nat)
    (job : Job) (ctxErr : error) :
  time.After (clock E (nowCalls st)) (entryDeadline E timeout st0) = false ->
  GetJob E id (tick st) = ((Some job, None), st') ->
  ctxDone E (selects st') = Some ctxErr ->
  (turns (WaitForState_turn E id desiredState (entryDeadline E timeout st0)) k
     (tick st0) = Some st ->
   State job <> desiredState ->
   IsTerminal (State job) = false ->
   WaitForState E (k + S fuel) id desiredState timeout st0
   = Some ((None, Some ctxErr), record_select st'))
  /\ (turns (WaitForStableState_turn E id (entryDeadline E timeout st0)) k
        (tick st0) = Some st ->
      IsStable (State job) = false ->
      WaitForStableState E (k + S fuel) id timeout st0
      = Some ((None, Some ctxErr), record_select st'))
  /\ (turns (WaitForDeletion_turn E id (entryDeadline E timeout st0)) k
        (tick st0) = Some st ->
      State job <> JobStateDeleted ->
      WaitForDeletion E (k + S fuel) id timeout st0
      = Some (Some ctxErr, record_select st'))
  /\ slept (record_select st') = slept st'.
Proof.
  intros Hafter Hget Hctx. split; [| split; [| split; [| reflexivity]]].
  - intros Hk Hstate Hterm. unfold WaitForState, Now.
    apply (forever_return_after _ k fuel _ st); [exact Hk |].
    unfold WaitForState_turn, bind at 1. unfold Now.
    fold (entryDeadline E timeout st0). rewrite Hafter.
    unfold bind at 1. rewrite Hget.
    destruct (String.eqb_spec (State job) desiredState) as [Heq | _];
      [contradiction |].
    rewrite Hterm. cbn [andb]. unfold bind, selectDone. now rewrite Hctx.
  - intros Hk Hstable. unfold WaitForStableState, Now.
    apply (forever_return_after _ k fuel _ st); [exact Hk |].
    unfold WaitForStableState_turn, bind at 1. unfold Now.
    fold (entryDeadline E timeout st0). rewrite Hafter.
    unfold bind at 1. rewrite Hget, Hstable.
    unfold bind, selectDone. now rewrite Hctx.
  - intros Hk Hstate. unfold WaitForDeletion, Now.
    apply (forever_return_after _ k fuel _ st); [exact Hk |].
    unfold WaitForDeletion_turn, bind at 1. unfold Now.
    fold (entryDeadline E timeout st0). rewrite Hafter.
    unfold bind at 1. rewrite Hget.
    destruct (String.eqb_spec (State job) JobStateDeleted) as [Heq | _];
      [contradiction |].
    unfold bind, selectDone. now rewrite Hctx.
Qed.

End WaitOutcomes.

Lemma WaitForState_success_and_errors_witness :
  option_map fst
    (WaitForState (Test.env Test.pendingThenRunning) (2 + 1) "test-id-123"
       JobStateRunning (1 * time.Second) (Test.store Test.cachedClient))
  = Some (Some (mkJob "test-id-123" 1 "test_pipeline" "RUNNING" "RUNNING"), None)
  /\ option_map fst
       (WaitForState (Test.env (Test.pendingThen 1 403 "forbidden")) (1 + 1)
          "test-id-123" JobStateRunning (1 * time.Second)
          (Test.store Test.cachedClient))
     = Some (None, Some (apiError (mkAPIError 403 "forbidden"))).
Proof.
  split.
  - epose proof (WaitForState_success_and_errors
                   (Test.env Test.pendingThenRunning) "test-id-123"
                   (1 * time.Second) JobStateRunning
                   (Test.store Test.cachedClient) _ 2 0) as H.
    edestruct H as [Hok _].
    + vm_compute. reflexivity.
    + reflexivity.
    + erewrite Hok; [reflexivity | vm_compute; reflexivity | reflexivity].
  - epose proof (WaitForState_success_and_errors
                   (Test.env (Test.pendingThen 1 403 "forbidden")) "test-id-123"
                   (1 * time.Second) JobStateRunning
                   (Test.store Test.cachedClient) _ 1 0) as H.
    edestruct H as [_ Herr].
    + vm_compute. reflexivity.
    + reflexivity.
    + erewrite (Herr None (apiError (mkAPIError 403 "forbidden"))).
      * reflexivity.
      * vm_compute. reflexivity.
      * intros apiErr _ _. discriminate.
Defined.

Lemma WaitForStableState_outcomes_witness :
  option_map fst
    (WaitForStableState (Test.env (Test.always 200 "PENDING")) (3 + 1)
       "test-id-123" (5 * time.Millisecond) (Test.store Test.cachedClient))
  = Some (None,
          Some (errorString
                  "timeout waiting for job test-id-123 to reach a stable state"))
  /\ option_map fst
       (WaitForStableState (Test.env (Test.pendingThen 1 200 "FAILED")) (1 + 1)
          "test-id-123" (1 * time.Second) (Test.store Test.cachedClient))
     = Some (Some (mkJob "test-id-123" 1 "test_pipeline" "FAILED" "RUNNING"), None)
  /\ option_map fst
       (WaitForStableState (Test.env (Test.pendingThen 1 404 "job not found"))
          (1 + 1) "test-id-123" (1 * time.Second) (Test.store Test.cachedClient))
     = Some (None, Some (apiError (mkAPIError 404 "job not found"))).
Proof.
  split; [| split].
  - epose proof (WaitForStableState_outcomes
                   (Test.env (Test.always 200 "PENDING")) "test-id-123"
                   (5 * time.Millisecond) (Test.store Test.cachedClient) _ 3 0)
      as H.
    edestruct H as [Htimeout _].
    + vm_compute. reflexivity.
    + rewrite Htimeout; reflexivity.
  - epose proof (WaitForStableState_outcomes
                   (Test.env (Test.pendingThen 1 200 "FAILED")) "test-id-123"
                   (1 * time.Second) (Test.store Test.cachedClient) _ 1 0)
      as H.
    edestruct H as [_ Hlive].
    + vm_compute. reflexivity.
    + destruct (Hlive eq_refl) as [Hstable _].
      erewrite Hstable; [reflexivity | vm_compute; reflexivity | reflexivity].
  - epose proof (WaitForStableState_outcomes
                   (Test.env (Test.pendingThen 1 404 "job not found"))
                   "test-id-123" (1 * time.Second)
                   (Test.store Test.cachedClient) _ 1 0)
      as H.
    edestruct H as [_ Hlive].
    + vm_compute. reflexivity.
    + destruct (Hlive eq_refl) as [_ Herr].
      erewrite (Herr None); [reflexivity | vm_compute; reflexivity].
Defined.

Lemma WaitForDeletion_outcomes_witness :
  option_map fst
    (WaitForDeletion (Test.env (Test.pendingThen 1 404 "job not found")) (1 + 1)
       "test-id-123" (1 * time.Second) (Test.store Test.cachedClient))
  = Some None
  /\ option_map fst
       (WaitForDeletion (Test.env (Test.pendingThen 1 200 "DELETED")) (1 + 1)
          "test-id-123" (1 * time.Second) (Test.store Test.cachedClient))
     = Some None
  /\ option_map fst
       (WaitForDeletion (Test.env (Test.pendingThen 1 403 "forbidden")) (1 + 1)
          "test-id-123" (1 * time.Second) (Test.store Test.cachedClient))
     = Some (Some (apiError (mkAPIError 403 "forbidden")))
  /\ option_map slept
       (turns (WaitForDeletion_turn (Test.env (Test.always 200 "FAILED"))
                 "test-id-123"
                 (entryDeadline (Test.env (Test.always 200 "FAILED"))
                    (1 * time.Second) (Test.store Test.cachedClient)))
          1 (tick (Test.store Test.cachedClient)))
     = Some [10 * time.Millisecond].
Proof.
  split; [| split; [| split]].
  - epose proof (WaitForDeletion_outcomes
                   (Test.env (Test.pendingThen 1 404 "job not found"))
                   "test-id-123" (1 * time.Second)
                   (Test.store Test.cachedClient) _ 1 0) as H.
    edestruct H as (Hnf & _).
    + vm_compute. reflexivity.
    + reflexivity.
    + erewrite (Hnf None (mkAPIError 404 "job not found"));
        [reflexivity | vm_compute; reflexivity | reflexivity].
  - epose proof (WaitForDeletion_outcomes
                   (Test.env (Test.pendingThen 1 200 "DELETED"))
                   "test-id-123" (1 * time.Second)
                   (Test.store Test.cachedClient) _ 1 0) as H.
    edestruct H as (_ & Hdel & _).
    + vm_compute. reflexivity.
    + reflexivity.
    + erewrite Hdel; [reflexivity | vm_compute; reflexivity | reflexivity].
  - epose proof (WaitForDeletion_outcomes
                   (Test.env (Test.pendingThen 1 403 "forbidden"))
                   "test-id-123" (1 * time.Second)
                   (Test.store Test.cachedClient) _ 1 0) as H.
    edestruct H as (_ & _ & Herr & _).
    + vm_compute. reflexivity.
    + reflexivity.
    + erewrite (Herr None (apiError (mkAPIError 403 "forbidden"))).
      * reflexivity.
      * vm_compute. reflexivity.
      * intros apiErr Heq. inversion Heq. reflexivity.
  - epose proof (WaitForDeletion_outcomes
                   (Test.env (Test.always 200 "FAILED"))
                   "test-id-123" (1 * time.Second)
                   (Test.store Test.cachedClient) _ 0 0) as H.
    edestruct H as (_ & _ & _ & Hgo).
    + reflexivity.
    + reflexivity.
    + pose proof (Hgo (mkJob "test-id-123" 1 "test_pipeline" "FAILED" "RUNNING")
                    _ eq_refl) as Hgo'.
      rewrite Hgo'; [reflexivity | simpl; discriminate | reflexivity].
Defined.

Lemma waits_end_on_cancellation_witness :
  option_map fst
    (WaitForState (Scenario.cancelledEnv (Test.always 200 "PENDING")) (0 + 1)
       "test-id-123" JobStateRunning (1 * time.Second)
       (Test.store Test.cachedClient))
  = Some (None, Some (errorString "context canceled"))
  /\ option_map fst
       (WaitForStableState (Scenario.cancelledEnv (Test.always 200 "PENDING"))
          (0 + 1) "test-id-123" (1 * time.Second) (Test.store Test.cachedClient))
     = Some (None, Some (errorString "context canceled"))
  /\ option_map fst
       (WaitForDeletion (Scenario.cancelledEnv (Test.always 200 "PENDING"))
          (0 + 1) "test-id-123" (1 * time.Second) (Test.store Test.cachedClient))
     = Some (Some (errorString "context canceled")).
Proof.
  epose proof (waits_end_on_cancellation
                 (Scenario.cancelledEnv (Test.always 200 "PENDING"))
                 "test-id-123" (1 * time.Second) JobStateRunning
                 (Test.store Test.cachedClient)
                 (tick (Test.store Test.cachedClient)) _ 0 0
                 (mkJob "test-id-123" 1 "test_pipeline" "PENDING" "RUNNING")
                 (errorString "context canceled")) as H.
  edestruct H as (Hstate & Hstable & Hdel & _).
  - reflexivity.
  - vm_compute. reflexivity.
  - reflexivity.
  - split; [| split].
    + rewrite Hstate; [reflexivity | reflexivity | simpl; discriminate | reflexivity].
    + rewrite Hstable; [reflexivity | reflexivity | reflexivity].
    + rewrite Hdel; [reflexivity | reflexivity | simpl; discriminate].
Defined.

(** ** The wait loops: termination *)

Lemma doRequest_reads_clock_forward
    (E : Env) (method path : string) (body : option (Payload E)) (st : Store) :
  (nowCalls st <= nowCalls (snd (doRequest E method path body st)))%nat.
Proof.
  unfold doRequest.
  destruct (marshalRequestBody E body) as [jsonBody | err]; [| simpl; lia].
  apply (doRequest_loop_cases E method path jsonBody
           (fun _ st0 r => (nowCalls st0 <= nowCalls (snd r))%nat)).
  - intros. simpl. lia.
  - intros a st0 st1 token e Hget.
    pose proof (tokenTraffic_getToken E st0) as T. rewrite Hget in T.
    destruct T as (_ & _ & _ & Hn & _). exact Hn.
  - intros a st0 st1 token e Hget _.
    pose proof (tokenTraffic_getToken E st0) as T. rewrite Hget in T.
    destruct T as (_ & _ & _ & Hn & _). exact Hn.
  - intros a st0 st1 token e Hget _ _.
    pose proof (tokenTraffic_getToken E st0) as T. rewrite Hget in T.
    destruct T as (_ & _ & _ & Hn & _). exact Hn.
  - intros a st0 st1 token resp Hget _ _.
    pose proof (tokenTraffic_getToken E st0) as T. rewrite Hget in T.
    destruct T as (_ & _ & _ & Hn & _). exact Hn.
  - intros a st0 st1 token r Hget _ Hr.
    pose proof (tokenTraffic_getToken E st0) as T. rewrite Hget in T.
    destruct T as (_ & _ & _ & Hn & _). simpl in Hn, Hr. lia.
Qed.

Lemma GetJob_reads_clock_forward (E : Env) (id : string) (st : Store) :
  (nowCalls st <= nowCalls (snd (GetJob E id st)))%nat.
Proof.
  unfold GetJob, bind.
  pose proof (doRequest_reads_clock_forward E http.MethodGet (jobPath E id)
                None st) as Hdo.
  destruct (doRequest E http.MethodGet (jobPath E id) None st)
    as [[resp [e |]] st'].
  - exact Hdo.
  - destruct (handleResponse resp (Some (unmarshalJob E)) zeroJob)
      as [job [e |]]; exact Hdo.
Qed.

Lemma selectDone_keeps_clock (E : Env) (st : Store) :
  nowCalls (snd (selectDone E st)) = nowCalls st.
Proof.
  unfold selectDone. now destruct (ctxDone E (selects st)).
Qed.

(** Every turn of a wait loop reads the clock at least once. *)
Lemma wait_turns_read_clock (E : Env) (id : string) (d : time.Time) (st : Store) :
  (forall desiredState : JobState,
     (nowCalls st < nowCalls (snd (WaitForState_turn E id desiredState d st)))%nat)
  /\ (nowCalls st < nowCalls (snd (WaitForStableState_turn E id d st)))%nat
  /\ (nowCalls st < nowCalls (snd (WaitForDeletion_turn E id d st)))%nat.
Proof.
  pose proof (GetJob_reads_clock_forward E id (tick st)) as Hget.
  split; [intros desiredState | split].
  - unfold WaitForState_turn, bind at 1. unfold Now.
    destruct (time.After (clock E (nowCalls st)) d); [simpl; lia |].
    unfold bind at 1.
    destruct (GetJob E id (tick st)) as [[job [e |]] st']; simpl in Hget.
    + destruct e as [s | msg inner | apiErr]; simpl; try lia.
      destruct (IsNotFound apiErr);
        [destruct (String.eqb desiredState JobStateDeleted) |]; simpl; lia.
    + destruct job as [job |]; [| simpl; lia].
      destruct (String.eqb (State job) desiredState); [simpl; lia |].
      destruct (IsTerminal (State job) && negb false); [simpl; lia |].
      unfold bind. pose proof (selectDone_keeps_clock E st') as Hsel.
      destruct (selectDone E st') as [[ctxErr |] st'']; simpl in *; lia.
  - unfold WaitForStableState_turn, bind at 1. unfold Now.
    destruct (time.After (clock E (nowCalls st)) d); [simpl; lia |].
    unfold bind at 1.
    destruct (GetJob E id (tick st)) as [[job [e |]] st']; simpl in Hget.
    + simpl. lia.
    + destruct job as [job |]; [| simpl; lia].
      destruct (IsStable (State job)); [simpl; lia |].
      unfold bind. pose proof (selectDone_keeps_clock E st') as Hsel.
      destruct (selectDone E st') as [[ctxErr |] st'']; simpl in *; lia.
  - unfold WaitForDeletion_turn, bind at 1. unfold Now.
    destruct (time.After (clock E (nowCalls st)) d); [simpl; lia |].
    unfold bind at 1.
    destruct (GetJob E id (tick st)) as [[job [e |]] st']; simpl in Hget.
    + destruct e as [s | msg inner | apiErr]; simpl; try lia.
      destruct (IsNotFound apiErr); simpl; lia.
    + destruct job as [job |]; [| simpl; lia].
      destruct (String.eqb (State job) JobStateDeleted); [simpl; lia |].
      unfold bind. pose proof (selectDone_keeps_clock E st') as Hsel.
      destruct (selectDone E st') as [[ctxErr |] st'']; simpl in *; lia.
Qed.

(** A loop whose turns read the clock, and return once [N] readings have
    been taken, returns when given the fuel for those readings. *)
Lemma forever_terminates {R : Type} (body : M (LoopStep R)) (N : nat) :
  (forall st : Store, (N <= nowCalls st)%nat ->
     exists (r : R) (st' : Store), body st = (Return r, st')) ->
  (forall st : Store, (nowCalls st < nowCalls (snd (body st)))%nat) ->
  forall (fuel : nat) (st : Store),
    (N < nowCalls st + S fuel)%nat ->
    exists (r : R) (st' : Store), forever body (S fuel) st = Some (r, st').
Proof.
  intros Hstop Hprogress.
  induction fuel as [| fuel IH]; intros st Hfuel.
  - destruct (Hstop st ltac:(lia)) as (r & st' & Hbody).
    exists r, st'. simpl. now rewrite Hbody.
  - pose proof (Hprogress st) as Hp.
    change (forever body (S (S fuel)) st)
      with (match body st with
            | (Return r, st') => Some (r, st')
            | (Continue, st') => forever body (S fuel) st'
            end).
    destruct (body st) as [[| r] st1]; simpl in Hp.
    + apply IH. lia.
    + now exists r, st1.
Qed.

(** The three waits return: if from the [N]-th reading on the clock is
    after the deadline, fuel for [N] readings is enough, whatever the
    server, the token endpoint and the context do. *)
Theorem waits_terminate
    (E : Env) (id : string) (desiredState : JobState) (timeout : time.Duration)
    (st0 : Store) (N fuel : nat) :
  (forall n : nat, (N <= n)%nat ->
     time.After (clock E n) (entryDeadline E timeout st0) = true) ->
  (N <= nowCalls st0 + S fuel)%nat ->
  (exists r, WaitForState E (S fuel) id desiredState timeout st0 = Some r)
  /\ (exists r, WaitForStableState E (S fuel) id timeout st0 = Some r)
  /\ (exists r, WaitForDeletion E (S fuel) id timeout st0 = Some r).
Proof.
  intros Hclock Hfuel.
  split; [| split].
  - unfold WaitForState, Now. fold (entryDeadline E timeout st0).
    destruct (forever_terminates
                (WaitForState_turn E id desiredState (entryDeadline E timeout st0))
                N) with (fuel := fuel) (st := tick st0) as (r & st' & Hr).
    + intros st Hst. eexists. eexists.
      apply WaitForState_timeout_turn. now apply Hclock.
    + intros st.
      exact (proj1 (wait_turns_read_clock E id (entryDeadline E timeout st0) st)
               desiredState).
    + simpl. lia.
    + rewrite Hr. now eexists.
  - unfold WaitForStableState, Now. fold (entryDeadline E timeout st0).
    destruct (forever_terminates
                (WaitForStableState_turn E id (entryDeadline E timeout st0))
                N) with (fuel := fuel) (st := tick st0) as (r & st' & Hr).
    + intros st Hst. eexists. eexists.
      unfold WaitForStableState_turn, bind, Now, ret.
      rewrite (Hclock (nowCalls st) Hst). reflexivity.
    + intros st.
      exact (proj1 (proj2 (wait_turns_read_clock E id
                             (entryDeadline E timeout st0) st))).
    + simpl. lia.
    + rewrite Hr. now eexists.
  - unfold WaitForDeletion, Now. fold (entryDeadline E timeout st0).
    destruct (forever_terminates
                (WaitForDeletion_turn E id (entryDeadline E timeout st0))
                N) with (fuel := fuel) (st := tick st0) as (r & st' & Hr).
    + intros st Hst. eexists. eexists.
      apply WaitForDeletion_timeout_turn. now apply Hclock.
    + intros st.
      exact (proj2 (proj2 (wait_turns_read_clock E id
                             (entryDeadline E timeout st0) st))).
    + simpl. lia.
    + rewrite Hr. now eexists.
Qed.

Lemma waits_terminate_witness :
  (exists r,
     WaitForState (Scenario.slowEnv (Test.always 200 "PENDING")) 4
       "test-id-123" JobStateRunning (3 * time.Second)
       (Test.store Test.cachedClient) = Some r)
  /\ (exists r,
        WaitForStableState (Scenario.slowEnv (Test.always 200 "PENDING")) 4
          "test-id-123" (3 * time.Second) (Test.store Test.cachedClient) = Some r)
  /\ (exists r,
        WaitForDeletion (Scenario.slowEnv (Test.always 200 "PENDING")) 4
          "test-id-123" (3 * time.Second) (Test.store Test.cachedClient) = Some r).
Proof.
  apply (waits_terminate (Scenario.slowEnv (Test.always 200 "PENDING"))
           "test-id-123" JobStateRunning (3 * time.Second)
           (Test.store Test.cachedClient) 4 3).
  - intros n Hn. apply Z.gtb_lt.
    change (3 * time.Second < Z.of_nat n * time.Second).
    unfold time.Second. lia.
  - simpl. lia.
Defined.

(** ** Deleting a pipeline *)

(** [Delete] treats a pipeline that is already gone as deleted: when
    [DeleteJob] fails with a not-found [APIError] there is no diagnostic
    and no polling, whatever [wait_for_state] says. Any other failure of
    [DeleteJob] gives the one diagnostic "Failed to delete pipeline" with
    the error's text, and again no polling; and without [wait_for_state]
    an accepted deletion is not polled either. *)
Theorem Delete_without_polling
    (E : Env) (fuel : nat) (state : pipeline.PipelineResourceModel)
    (st st1 : Store) :
  (forall apiErr : APIError,
     DeleteJob E (pipeline.ID state) st = (Some (apiError apiErr), st1) ->
     IsNotFound apiErr = true ->
     pipeline.Delete E fuel state st = Some ([], st1))
  /\ (forall err : error,
        DeleteJob E (pipeline.ID state) st = (Some err, st1) ->
        (forall apiErr : APIError,
           err = apiError apiErr -> IsNotFound apiErr = false) ->
        pipeline.Delete E fuel state st
        = Some ([pipeline.mkDiagnostic "Failed to delete pipeline" (Error err)],
                st1))
  /\ (DeleteJob E (pipeline.ID state) st = (None, st1) ->
      pipeline.WaitForState state = false ->
      pipeline.Delete E fuel state st = Some ([], st1)).
Proof.
  split; [| split].
  - intros apiErr Hdel Hnf. unfold pipeline.Delete. now rewrite Hdel, Hnf.
  - intros err Hdel Hnot. unfold pipeline.Delete. rewrite Hdel.
    destruct err as [s | msg inner | apiErr]; try reflexivity.
    now rewrite (Hnot apiErr eq_refl).
  - intros Hdel Hwait. unfold pipeline.Delete. now rewrite Hdel, Hwait.
Qed.

Lemma Delete_without_polling_witness :
  option_map fst
    (pipeline.Delete (Test.env (Test.always 404 "job not found")) 0
       (pipeline.mkModel "test-id-123" true 300) (Test.store Test.cachedClient))
  = Some []
  /\ option_map fst
       (pipeline.Delete (Test.env (Test.always 403 "forbidden")) 0
          (pipeline.mkModel "test-id-123" true 300)
          (Test.store Test.cachedClient))
     = Some [pipeline.mkDiagnostic "Failed to delete pipeline"
               "API error (status 403): forbidden"]
  /\ option_map fst
       (pipeline.Delete (Test.env (Test.always 202 "")) 0
          (pipeline.mkModel "test-id-123" false 300)
          (Test.store Test.cachedClient))
     = Some [].
Proof.
  split; [| split].
  - rewrite (proj1 (Delete_without_polling
                      (Test.env (Test.always 404 "job not found")) 0
                      (pipeline.mkModel "test-id-123" true 300)
                      (Test.store Test.cachedClient) _)
               (mkAPIError 404 "job not found") eq_refl eq_refl).
    reflexivity.
  - rewrite (proj1 (proj2 (Delete_without_polling
                             (Test.env (Test.always 403 "forbidden")) 0
                             (pipeline.mkModel "test-id-123" true 300)
                             (Test.store Test.cachedClient) _))
               (apiError (mkAPIError 403 "forbidden")) eq_refl).
    + reflexivity.
    + intros apiErr Heq. inversion Heq. reflexivity.
  - rewrite (proj2 (proj2 (Delete_without_polling
                             (Test.env (Test.always 202 "")) 0
                             (pipeline.mkModel "test-id-123" false 300)
                             (Test.store Test.cachedClient) _))
               eq_refl eq_refl).
    reflexivity.
Defined.

(** With [wait_for_state], an accepted deletion is polled with a timeout
    of [state_timeout] seconds (for a value whose nanoseconds fit in a
    Duration). A poll that finds the job gone ends [Delete] without a
    diagnostic; a turn that starts after the deadline ends it with the one
    diagnostic "Pipeline deletion may not be complete", whose detail is
    "Delete request accepted but pipeline may still be deleting: timeout
    waiting for job {id} to be deleted". *)
Theorem Delete_polls_until_gone
    (E : Env) (state : pipeline.PipelineResourceModel)
    (st st1 st2 : Store) (k fuel : nat) :
  DeleteJob E (pipeline.ID state) st = (None, st1) ->
  pipeline.WaitForState state = true ->
  Int64.in_range (pipeline.StateTimeout state * time.Second) ->
  turns (WaitForDeletion_turn E (pipeline.ID state)
           (entryDeadline E (pipeline.StateTimeout state * time.Second) st1))
    k (tick st1) = Some st2 ->
  (time.After (clock E (nowCalls st2))
     (entryDeadline E (pipeline.StateTimeout state * time.Second) st1) = true ->
   pipeline.Delete E (k + S fuel) state st
   = Some ([pipeline.mkDiagnostic "Pipeline deletion may not be complete"
              ("Delete request accepted but pipeline may still be deleting: "
               ++ "timeout waiting for job " ++ pipeline.ID state
               ++ " to be deleted")],
           tick st2))
  /\ (time.After (clock E (nowCalls st2))
        (entryDeadline E (pipeline.StateTimeout state * time.Second) st1) = false ->
      forall (job : option Job) (apiErr : APIError) (st' : Store),
        GetJob E (pipeline.ID state) (tick st2)
        = ((job, Some (apiError apiErr)), st') ->
        IsNotFound apiErr = true ->
        pipeline.Delete E (k + S fuel) state st = Some ([], st')).
Proof.
  intros Hdel Hwait Hrange Hk.
  unfold pipeline.Delete. rewrite Hdel, Hwait.
  unfold Int64.mul. rewrite (wrap64_in_range _ Hrange).
  unfold WaitForDeletion, Now.
  fold (entryDeadline E (pipeline.StateTimeout state * time.Second) st1).
  split.
  - intros Hafter.
    rewrite (forever_return_after _ k fuel (tick st1) st2 (tick st2)
               (Some (errorString
                        ("timeout waiting for job " ++ pipeline.ID state
                         ++ " to be deleted")))
               Hk (WaitForDeletion_timeout_turn E (pipeline.ID state) _ st2 Hafter)).
    cbn. now rewrite append_empty_r.
  - intros Hafter job apiErr st' Hget Hnf.
    rewrite (forever_return_after _ k fuel (tick st1) st2 st' None Hk);
      [reflexivity |].
    unfold WaitForDeletion_turn, bind at 1. unfold Now. rewrite Hafter.
    unfold bind. now rewrite Hget, Hnf.
Qed.

Lemma Delete_polls_until_gone_witness :
  option_map fst
    (pipeline.Delete (Scenario.slowEnv (Test.always 202 "")) (1 + 1)
       (pipeline.mkModel "test-id-123" true 2) (Test.store Test.cachedClient))
  = Some [pipeline.mkDiagnostic "Pipeline deletion may not be complete"
            ("Delete request accepted but pipeline may still be deleting: "
             ++ "timeout waiting for job test-id-123 to be deleted")]
  /\ option_map fst
       (pipeline.Delete (Scenario.slowEnv (Test.pendingThen 2 404 "job not found"))
          (1 + 1) (pipeline.mkModel "test-id-123" true 300)
          (Test.store Test.cachedClient))
     = Some [].
Proof.
  split.
  - epose proof (Delete_polls_until_gone
                   (Scenario.slowEnv (Test.always 202 ""))
                   (pipeline.mkModel "test-id-123" true 2)
                   (Test.store Test.cachedClient) _ _ 1 0) as H.
    edestruct H as [Htimeout _].
    + reflexivity.
    + reflexivity.
    + unfold Int64.in_range, Int64.half_modulus. simpl. lia.
    + vm_compute. reflexivity.
    + rewrite Htimeout; reflexivity.
  - epose proof (Delete_polls_until_gone
                   (Scenario.slowEnv (Test.pendingThen 2 404 "job not found"))
                   (pipeline.mkModel "test-id-123" true 300)
                   (Test.store Test.cachedClient) _ _ 1 0) as H.
    edestruct H as [_ Hgone].
    + reflexivity.
    + reflexivity.
    + unfold Int64.in_range, Int64.half_modulus. simpl. lia.
    + vm_compute. reflexivity.
    + erewrite (Hgone eq_refl None (mkAPIError 404 "job not found"));
        [reflexivity | vm_compute; reflexivity | reflexivity].
Defined.

(** ** The traffic of the token manager *)

Lemma FetchToken_sent (E : Env) (st : Store) :
  sent (snd (FetchToken E st)) = sent st
  \/ exists body : string,
       marshalTokenRequest E (tokenRequestBody (client st)) = inl body
       /\ sent (snd (FetchToken E st))
          = tokenRequest (client st) body :: sent st.
Proof.
  unfold FetchToken, bind, getClient, ret, Do.
  destruct (marshalTokenRequest E (tokenRequestBody (client st)))
    as [body | err]; [| now left].
  destruct (newRequestError E _ _); [now left |].
  right. exists body. split; [reflexivity |].
  destruct (roundTrip E _ _) as [resp | err]; [| reflexivity].
  destruct (negb _); [reflexivity |].
  destruct (decodeTokenResponse E _); reflexivity.
Qed.

(** A call of [getToken] sends nothing or one request, and that request
    is the client-credentials request: a POST to
    https://{domain}/oauth/token with a JSON content type, no
    [Authorization] header, and the marshalled credentials with audience
    "service" and grant type "client_credentials" as its body. *)
Theorem getToken_sends_at_most_the_token_request (E : Env) (st : Store) :
  sent (snd (getToken E st)) = sent st
  \/ exists body : string,
       marshalTokenRequest E
         (mkOAuthTokenRequest (clientID (client st)) (clientSecret (client st))
            "service" "client_credentials") = inl body
       /\ sent (snd (getToken E st))
          = http.mkRequest "POST"
              ("https://" ++ auth0Domain (client st) ++ "/oauth/token")
              None (Some "application/json") None (Some body)
            :: sent st.
Proof.
  assert (Hurl : forall c : Client,
            tokenURL c = "https://" ++ auth0Domain c ++ "/oauth/token").
  { intros c. unfold tokenURL. cbn. reflexivity. }
  destruct (cachedTokenValid E st) as [v1 st1] eqn:H1.
  pose proof (cachedTokenValid_client E st) as [Hc1 Hs1].
  rewrite H1 in Hc1, Hs1. simpl in Hc1, Hs1.
  destruct v1.
  - left. unfold getToken, bind at 1. rewrite H1. exact Hs1.
  - destruct (cachedTokenValid E st1) as [v2 st2] eqn:H2.
    pose proof (cachedTokenValid_client E st1) as [Hc2 Hs2].
    rewrite H2 in Hc2, Hs2. simpl in Hc2, Hs2.
    destruct v2.
    + left. unfold getToken, bind at 1. rewrite H1.
      unfold bind at 1. rewrite H2. simpl. congruence.
    + rewrite (getToken_stale E st st1 st2 H1 H2).
      assert (Hc : client st2 = client st) by congruence.
      assert (Hs : sent st2 = sent st) by congruence.
      destruct (FetchToken_sent E st2) as [Hsame | (body & Hm & Hsent)].
      * left.
        destruct (FetchToken E st2) as [[[token expiresIn] [e |]] st3];
          simpl in Hsame |- *; congruence.
      * right. exists body.
        rewrite Hc in Hm, Hsent. rewrite Hs in Hsent.
        unfold tokenRequest in Hsent. rewrite Hurl in Hsent.
        split; [exact Hm |].
        destruct (FetchToken E st2) as [[[token expiresIn] [e |]] st3];
          simpl in Hsent |- *; exact Hsent.
Qed.
